(** * PoseVision landmark tracker: the classifier and the control loop

    A shallow embedding of [landmark_detector.py].  Landmark coordinates are
    IEEE-754 binary64 numbers, as Python floats are, so they are modelled with
    the kernel's primitive floats.  Everything that lives in cv2, mediapipe,
    PIL or customtkinter is an uninterpreted operation that may raise. *)

From Stdlib Require Import ZArith List String Bool Lia.
From Stdlib Require Import Floats.PrimFloat Floats.FloatOps Floats.SpecFloat.
From Stdlib Require Import Floats.FloatAxioms.
Import ListNotations.

#[local] Set Warnings "-inexact-float".
#[local] Open Scope list_scope.
#[local] Open Scope string_scope.

(** ** Exceptions *)

(** The subclasses of Python's [Exception] the program can meet.
    [LibraryError] stands for whatever a library call raises. *)
Inductive exn : Type :=
| IndexError (msg : string)
| AttributeError (msg : string)
| ValueError (msg : string)
| OverflowError (msg : string)
| LibraryError (msg : string).

(** [str(e)] *)
Definition str (e : exn) : string :=
  match e with
  | IndexError m | AttributeError m | ValueError m
  | OverflowError m | LibraryError m => m
  end.

(** ** Detection results *)

Record NormalizedLandmark : Type := mkLandmark {
  x : float;
  y : float;
  z : float;
  visibility : float
}.

Record NormalizedLandmarkList : Type := mkLandmarkList {
  landmark : list NormalizedLandmark
}.

(** What [Holistic.process] returns.  A field is [None] when that part of the
    body was not detected. *)
Record SolutionOutputs : Type := mkOutputs {
  face_landmarks : option NormalizedLandmarkList;
  right_hand_landmarks : option NormalizedLandmarkList;
  left_hand_landmarks : option NormalizedLandmarkList;
  pose_landmarks : option NormalizedLandmarkList
}.

(** The values of [mp_holistic.PoseLandmark] that the classifier uses.  The
    enumeration belongs to mediapipe, so the classifier is stated for any
    assignment of indices; [mp_pose] is mediapipe's. *)
Record PoseLandmark : Type := mkPose {
  RIGHT_SHOULDER : nat;
  RIGHT_WRIST : nat;
  LEFT_SHOULDER : nat;
  LEFT_WRIST : nat
}.

Definition mp_pose : PoseLandmark :=
  {| RIGHT_SHOULDER := 12; RIGHT_WRIST := 16;
     LEFT_SHOULDER := 11; LEFT_WRIST := 15 |}.

(** ** Coordinate reads, with the record of what was read *)

Inductive coord : Type := CoordX | CoordY | CoordZ | CoordVisibility.

Definition get (c : coord) (lm : NormalizedLandmark) : float :=
  match c with
  | CoordX => x lm
  | CoordY => y lm
  | CoordZ => z lm
  | CoordVisibility => visibility lm
  end.

(** One read of a coordinate of the landmark at an index. *)
Record access : Type := mkAccess {
  at_index : nat;
  at_coord : coord
}.

(** A computation that reads landmark coordinates: the reads it made, oldest
    first, and either the exception it raised or its value. *)
Definition Traced (A : Type) : Type := (list access * (exn + A))%type.

Definition ret {A} (a : A) : Traced A := ([], inr a).

Definition raise {A} (e : exn) : Traced A := ([], inl e).

Definition bind {A B} (m : Traced A) (f : A -> Traced B) : Traced B :=
  match m with
  | (l, inl e) => (l, inl e)
  | (l, inr a) => let (l', r) := f a in ((l ++ l')%list, r)
  end.

Definition reads {A} (m : Traced A) : list access := fst m.
Definition outcome {A} (m : Traced A) : exn + A := snd m.

Declare Scope traced_scope.
Delimit Scope traced_scope with traced.
Notation "v <- m ;; k" := (bind m (fun v => k))
  (at level 100, m at next level, right associativity) : traced_scope.

(** [landmarks[i].c]: indexing past the end raises before any coordinate is
    read. *)
Definition coordinate (landmarks : list NormalizedLandmark) (i : nat) (c : coord)
  : Traced float :=
  match nth_error landmarks i with
  | Some lm => ([mkAccess i c], inr (get c lm))
  | None => raise (IndexError "list index out of range")
  end.

(** ** The classifier *)

(** The three labels the classifier chooses between. *)
Definition action_labels : list string :=
  ["Raising Right Hand"; "Raising Left Hand"; "Standing"].

Section Classifier.

Variable pose : PoseLandmark.

(** [LandmarkDetectorGUI.detect_action].  [results] is [None] when
    [process_frame] fell back; a [SolutionOutputs] and a landmark list are
    always truthy, so the guard only tests for [None]. *)
Definition detect_action (results : option SolutionOutputs) : Traced string :=
  match results with
  | None => ret "None"
  | Some r =>
    match pose_landmarks r with
    | None => ret "None"
    | Some pl =>
      let landmarks := landmark pl in
      (right_shoulder <- coordinate landmarks (RIGHT_SHOULDER pose) CoordY ;;
       right_wrist <- coordinate landmarks (RIGHT_WRIST pose) CoordY ;;
       left_shoulder <- coordinate landmarks (LEFT_SHOULDER pose) CoordY ;;
       left_wrist <- coordinate landmarks (LEFT_WRIST pose) CoordY ;;
       if (right_wrist <? right_shoulder - 0.2)%float
       then ret "Raising Right Hand"
       else if (left_wrist <? left_shoulder - 0.2)%float
       then ret "Raising Left Hand"
       else ret "Standing")%traced
    end
  end.

(** The four landmarks the classifier indexes are present. *)
Definition has_pose_points (pl : NormalizedLandmarkList) : bool :=
  forallb (fun i => Nat.ltb i (List.length (landmark pl)))
          [RIGHT_SHOULDER pose; RIGHT_WRIST pose;
           LEFT_SHOULDER pose; LEFT_WRIST pose].

(** A result as mediapipe produces it: when a pose is present it carries the
    indexed landmarks. *)
Definition well_formed (results : option SolutionOutputs) : bool :=
  match results with
  | None => true
  | Some r =>
    match pose_landmarks r with
    | None => true
    | Some pl => has_pose_points pl
    end
  end.

(** The y values of the four landmarks, where present. *)
Definition pose_ys (pl : NormalizedLandmarkList) : list (option float) :=
  map (fun i => option_map y (nth_error (landmark pl) i))
      [RIGHT_SHOULDER pose; RIGHT_WRIST pose;
       LEFT_SHOULDER pose; LEFT_WRIST pose].

End Classifier.

(** ** Camera properties *)

(** Python's [int] applied to a float: truncation toward zero, an error on
    NaN and on the infinities. *)
Definition int_of_float (f : float) : exn + Z :=
  match Prim2SF f with
  | S754_zero _ => inr 0%Z
  | S754_infinity _ =>
      inl (OverflowError "cannot convert float infinity to integer")
  | S754_nan => inl (ValueError "cannot convert float NaN to integer")
  | S754_finite s m e =>
      let magnitude :=
        if (0 <=? e)%Z then Z.shiftl (Z.pos m) e else Z.shiftr (Z.pos m) (- e) in
      inr (if s then (- magnitude)%Z else magnitude)
  end.

(** [n or d] on integers: [d] when [n] is zero. *)
Definition int_or (n d : Z) : Z := if (n =? 0)%Z then d else n.

(** What the opened [cv2.VideoCapture] answers to [isOpened] and to [get]. *)
Record VideoCapture : Type := mkCapture {
  isOpened : bool;
  CAP_PROP_FRAME_WIDTH : float;
  CAP_PROP_FRAME_HEIGHT : float;
  CAP_PROP_FPS : float
}.

(** The arguments [cv2.VideoWriter] was constructed with. *)
Record VideoWriter : Type := mkWriter {
  filename : string;
  fourcc : string;
  writer_fps : Z;
  frame_size : Z * Z
}.

(** ** Drawing *)

Record DrawingSpec : Type := mkSpec {
  color : Z * Z * Z;
  thickness : Z;
  circle_radius : Z
}.

Inductive Connections : Type :=
| FACEMESH_CONTOURS
| HAND_CONNECTIONS
| POSE_CONNECTIONS.

Inductive ColorConversion : Type := COLOR_BGR2RGB | COLOR_RGB2BGR.

Inductive Resampling : Type := LANCZOS.

(** [_init_drawing_specs] *)
Definition face_spec : DrawingSpec * DrawingSpec :=
  (mkSpec (80, 110, 10)%Z 1 1, mkSpec (80, 256, 121)%Z 1 1).
Definition right_hand_spec : DrawingSpec * DrawingSpec :=
  (mkSpec (80, 22, 10)%Z 2 4, mkSpec (80, 44, 121)%Z 2 2).
Definition left_hand_spec : DrawingSpec * DrawingSpec :=
  (mkSpec (121, 22, 76)%Z 2 4, mkSpec (121, 44, 250)%Z 2 2).
Definition pose_spec : DrawingSpec * DrawingSpec :=
  (mkSpec (245, 117, 66)%Z 2 4, mkSpec (245, 66, 230)%Z 2 2).

(** ** The libraries *)

(** The operations of cv2, mediapipe and PIL the program calls on frames.
    Each may raise.  [draw_landmarks] paints on its argument in place; here it
    returns the painted array.  [process] may keep tracking state between
    frames, so it threads the detector. *)
Class Libraries : Type := {
  ndarray : Type;
  pil_image : Type;
  photo_image : Type;
  Holistic : Type;
  PoseLandmark_value : PoseLandmark;
  cvtColor : ndarray -> ColorConversion -> exn + ndarray;
  process : Holistic -> ndarray -> (exn + SolutionOutputs) * Holistic;
  draw_landmarks : ndarray -> NormalizedLandmarkList -> Connections ->
                   DrawingSpec -> DrawingSpec -> exn + ndarray;
  fromarray : ndarray -> exn + pil_image;
  resize : pil_image -> Z * Z -> Resampling -> exn + pil_image;
  PhotoImage : pil_image -> exn + photo_image
}.

Inductive level : Type := INFO | WARNING | ERROR.

(** Python truthiness of an attribute holding [None] or an object. *)
Definition truthy {A} (o : option A) : bool :=
  match o with
  | Some _ => true
  | None => false
  end.

(** ** The application *)

Section App.

Context {L : Libraries}.

(** The fields of a [LandmarkDetectorGUI] that the methods read or assign.
    [last_frame] and [last_results] are [None] until [update_frame] first
    assigns them (the attribute does not exist before); [last_results] then
    holds what [process_frame] returned, which may itself be [None]. *)
Record GUI : Type := mkGUI {
  holistic : Holistic;
  cap_opened : bool;
  frame_width : Z;
  frame_height : Z;
  fps : Z;
  recording : bool;
  video_writer : option VideoWriter;
  record_button : string;
  status_label : string * string;
  action_label : string;
  video_label : option photo_image;
  running : bool;
  last_frame : option ndarray;
  last_results : option (option SolutionOutputs)
}.

(** What a method does to the world outside the object's fields. *)
Inductive event : Type :=
| CapRead (ret : bool)
| CapRelease
| WriterOpen (w : VideoWriter)
| WriterWrite (w : VideoWriter) (frame : ndarray)
| WriterRelease (w : VideoWriter)
| ImWrite (file : string) (img : ndarray)
| Log (lvl : level) (msg : string)
| ConfigureStatus (text colour : string)
| ConfigureAction (text : string)
| ConfigureRecordButton (text : string)
| ConfigureVideo (imgtk : photo_image)
| After (ms : Z)
| HolisticClose
| RootDestroy.

(** The outcome of running a method: the exception or the value, the object
    afterwards, and the effects in the order they happened.  Assignments
    and effects made before an exception stay. *)
Record Run (A : Type) : Type := mkRun {
  result : exn + A;
  final : GUI;
  emitted : list event
}.
Arguments mkRun {A}.
Arguments result {A}.
Arguments final {A}.
Arguments emitted {A}.

Definition M (A : Type) : Type := GUI -> Run A.

Definition pure {A} (a : A) : M A := fun self => mkRun (inr a) self [].

Definition throw {A} (e : exn) : M A := fun self => mkRun (inl e) self [].

Definition seq {A B} (m : M A) (f : A -> M B) : M B :=
fun self =>
  match m self with
  | mkRun (inl e) self' evs => mkRun (inl e) self' evs
  | mkRun (inr a) self' evs =>
      match f a self' with
      | mkRun r self'' evs' => mkRun r self'' (evs ++ evs')%list
      end
  end.

(** [try: body  except Exception as e: handler e] *)
Definition try_except {A} (body : M A) (handler : exn -> M A) : M A :=
fun self =>
  match body self with
  | mkRun (inr a) self' evs => mkRun (inr a) self' evs
  | mkRun (inl e) self' evs =>
      match handler e self' with
      | mkRun r self'' evs' => mkRun r self'' (evs ++ evs')%list
      end
  end.

Definition lift {A} (r : exn + A) : M A :=
  fun self => mkRun r self [].

Definition emit (ev : event) : M unit :=
  fun self => mkRun (inr tt) self [ev].

Definition getattr {A} (field : GUI -> A) : M A :=
  fun self => mkRun (inr (field self)) self [].

Definition assign (f : GUI -> GUI) : M unit :=
  fun self => mkRun (inr tt) (f self) [].

End App.

Arguments mkRun {L A}.
Arguments result {L A}.
Arguments final {L A}.
Arguments emitted {L A}.

Declare Scope gui_scope.
Delimit Scope gui_scope with gui.
Notation "v <- m ;; k" := (seq m (fun v => k))
  (at level 100, m at next level, right associativity) : gui_scope.
Notation "m ;;; k" := (seq m (fun _ => k))
  (at level 100, right associativity) : gui_scope.

(** ** Methods *)

Section Methods.

Context {L : Libraries}.

(** Assignment to one field. *)
Definition set_holistic (v : Holistic) (self : GUI) : GUI :=
  mkGUI v (cap_opened self) (frame_width self) (frame_height self)
    (fps self) (recording self) (video_writer self) (record_button self)
    (status_label self) (action_label self) (video_label self)
    (running self) (last_frame self) (last_results self).
Definition set_cap_opened (v : bool) (self : GUI) : GUI :=
  mkGUI (holistic self) v (frame_width self) (frame_height self) (fps self)
    (recording self) (video_writer self) (record_button self)
    (status_label self) (action_label self) (video_label self)
    (running self) (last_frame self) (last_results self).
Definition set_recording (v : bool) (self : GUI) : GUI :=
  mkGUI (holistic self) (cap_opened self) (frame_width self)
    (frame_height self) (fps self) v (video_writer self)
    (record_button self) (status_label self) (action_label self)
    (video_label self) (running self) (last_frame self) (last_results self).
Definition set_video_writer (v : option VideoWriter) (self : GUI) : GUI :=
  mkGUI (holistic self) (cap_opened self) (frame_width self)
    (frame_height self) (fps self) (recording self) v (record_button self)
    (status_label self) (action_label self) (video_label self)
    (running self) (last_frame self) (last_results self).
Definition set_record_button (v : string) (self : GUI) : GUI :=
  mkGUI (holistic self) (cap_opened self) (frame_width self)
    (frame_height self) (fps self) (recording self) (video_writer self) v
    (status_label self) (action_label self) (video_label self)
    (running self) (last_frame self) (last_results self).
Definition set_status_label (v : string * string) (self : GUI) : GUI :=
  mkGUI (holistic self) (cap_opened self) (frame_width self)
    (frame_height self) (fps self) (recording self) (video_writer self)
    (record_button self) v (action_label self) (video_label self)
    (running self) (last_frame self) (last_results self).
Definition set_action_label (v : string) (self : GUI) : GUI :=
  mkGUI (holistic self) (cap_opened self) (frame_width self)
    (frame_height self) (fps self) (recording self) (video_writer self)
    (record_button self) (status_label self) v (video_label self)
    (running self) (last_frame self) (last_results self).
Definition set_video_label (v : option photo_image) (self : GUI) : GUI :=
  mkGUI (holistic self) (cap_opened self) (frame_width self)
    (frame_height self) (fps self) (recording self) (video_writer self)
    (record_button self) (status_label self) (action_label self) v
    (running self) (last_frame self) (last_results self).
Definition set_running (v : bool) (self : GUI) : GUI :=
  mkGUI (holistic self) (cap_opened self) (frame_width self)
    (frame_height self) (fps self) (recording self) (video_writer self)
    (record_button self) (status_label self) (action_label self)
    (video_label self) v (last_frame self) (last_results self).
Definition set_last_frame (v : option ndarray) (self : GUI) : GUI :=
  mkGUI (holistic self) (cap_opened self) (frame_width self)
    (frame_height self) (fps self) (recording self) (video_writer self)
    (record_button self) (status_label self) (action_label self)
    (video_label self) (running self) v (last_results self).
Definition set_last_results (v : option (option SolutionOutputs)) (self : GUI) : GUI :=
  mkGUI (holistic self) (cap_opened self) (frame_width self)
    (frame_height self) (fps self) (recording self) (video_writer self)
    (record_button self) (status_label self) (action_label self)
    (video_label self) (running self) (last_frame self) v.

#[local] Open Scope gui_scope.

(** [self.logger.<level>(msg)] *)
Definition logger (lvl : level) (msg : string) : M unit :=
  emit (Log lvl msg).

(** [self.status_label.configure(text=..., text_color=...)] and the like:
    the widget's field changes and the change is shown. *)
Definition configure_status (text colour : string) : M unit :=
  assign (set_status_label (text, colour)) ;;;
  emit (ConfigureStatus text colour).

Definition configure_action (text : string) : M unit :=
  assign (set_action_label text) ;;; emit (ConfigureAction text).

Definition configure_record_button (text : string) : M unit :=
  assign (set_record_button text) ;;; emit (ConfigureRecordButton text).

Definition configure_video (imgtk : photo_image) : M unit :=
  assign (set_video_label (Some imgtk)) ;;; emit (ConfigureVideo imgtk).

(** [self.holistic.process(image)] *)
Definition holistic_process (image : ndarray) : M SolutionOutputs :=
  fun self =>
    let (r, h) := process (holistic self) image in
    mkRun r (set_holistic h self) [].

Definition sum_bind {A B} (r : exn + A) (f : A -> exn + B) : exn + B :=
  match r with
  | inl e => inl e
  | inr a => f a
  end.

(** [LandmarkDetectorGUI.__init__], as far as the fields go: [h] is the
    detector [Holistic(...)] built, [cap] the capture [cv2.VideoCapture]
    opened. *)
Definition __init__ (h : Holistic) (cap : VideoCapture) : exn + GUI :=
  sum_bind (int_of_float (CAP_PROP_FRAME_WIDTH cap)) (fun width =>
  sum_bind (int_of_float (CAP_PROP_FRAME_HEIGHT cap)) (fun height =>
  sum_bind (int_of_float (CAP_PROP_FPS cap)) (fun reported =>
  inr {| holistic := h;
         cap_opened := isOpened cap;
         frame_width := width;
         frame_height := height;
         fps := int_or reported 30;
         recording := false;
         video_writer := None;
         record_button := "Start Recording";
         status_label := ("Ready", "gray");
         action_label := "Action: None";
         video_label := None;
         running := true;
         last_frame := None;
         last_results := None |}))).

(** One guarded call of [mp_drawing.draw_landmarks] in [_draw_landmarks]. *)
Definition draw_if (lms : option NormalizedLandmarkList) (conn : Connections)
           (spec : DrawingSpec * DrawingSpec) (image : ndarray) : M ndarray :=
  match lms with
  | Some l => lift (draw_landmarks image l conn (fst spec) (snd spec))
  | None => pure image
  end.

(** [LandmarkDetectorGUI._draw_landmarks]; the result is [image] as the
    calls left it. *)
Definition _draw_landmarks (image : ndarray) (results : SolutionOutputs)
  : M ndarray :=
  image <- draw_if (face_landmarks results) FACEMESH_CONTOURS face_spec image ;;
  image <- draw_if (right_hand_landmarks results) HAND_CONNECTIONS
                   right_hand_spec image ;;
  image <- draw_if (left_hand_landmarks results) HAND_CONNECTIONS
                   left_hand_spec image ;;
  draw_if (pose_landmarks results) POSE_CONNECTIONS pose_spec image.

(** The body of the [try] in [process_frame]. *)
Definition annotate (frame : ndarray) : M (ndarray * option SolutionOutputs) :=
  image <- lift (cvtColor frame COLOR_BGR2RGB) ;;
  results <- holistic_process image ;;
  image <- lift (cvtColor image COLOR_RGB2BGR) ;;
  image <- _draw_landmarks image results ;;
  pure (image, Some results).

(** The [except] clause of [process_frame]. *)
Definition fallback (frame : ndarray) (e : exn)
  : M (ndarray * option SolutionOutputs) :=
  logger ERROR ("Error processing frame: " ++ str e) ;;;
  configure_status ("Error: " ++ str e) "red" ;;;
  pure (frame, None).

(** [LandmarkDetectorGUI.process_frame] *)
Definition process_frame (frame : ndarray)
  : M (ndarray * option SolutionOutputs) :=
  try_except (annotate frame) (fallback frame).

(** [results and results.pose_landmarks], as a truth value. *)
Definition pose_detected (results : option SolutionOutputs) : bool :=
  match results with
  | Some r => truthy (pose_landmarks r)
  | None => false
  end.

(** [LandmarkDetectorGUI.capture_image]; [timestamp] is what
    [datetime.datetime.now().strftime(...)] gives when it is called. *)
Definition capture_image (timestamp : string) : M unit :=
  attr <- getattr last_results ;;
  has_pose <- match attr with
              | Some (Some r) => pure (truthy (pose_landmarks r))
              | Some None =>
                  throw (AttributeError
                    "'NoneType' object has no attribute 'pose_landmarks'")
              | None => pure false
              end ;;
  if has_pose : bool then
    let filename := "capture_" ++ timestamp ++ ".jpg" in
    stored <- getattr last_frame ;;
    match stored with
    | Some img =>
        emit (ImWrite filename img) ;;;
        logger INFO ("Image saved as " ++ filename) ;;;
        configure_status ("Saved: " ++ filename) "green"
    | None =>
        throw (AttributeError
          "'LandmarkDetectorGUI' object has no attribute 'last_frame'")
    end
  else
    logger WARNING "No pose landmarks detected to capture!" ;;;
    configure_status "No pose detected!" "orange".

(** [LandmarkDetectorGUI.toggle_recording] *)
Definition toggle_recording (timestamp : string) : M unit :=
  rec <- getattr recording ;;
  if negb rec then
    let filename := "recording_" ++ timestamp ++ ".mp4" in
    let fourcc := "mp4v" in
    rate <- getattr fps ;;
    width <- getattr frame_width ;;
    height <- getattr frame_height ;;
    let w := mkWriter filename fourcc rate (width, height) in
    emit (WriterOpen w) ;;;
    assign (set_video_writer (Some w)) ;;;
    assign (set_recording true) ;;;
    configure_record_button "Stop Recording" ;;;
    configure_status ("Recording: " ++ filename) "red" ;;;
    logger INFO ("Started recording: " ++ filename)
  else
    assign (set_recording false) ;;;
    writer <- getattr video_writer ;;
    match writer with
    | Some w =>
        emit (WriterRelease w) ;;;
        assign (set_video_writer None)
    | None => pure tt
    end ;;;
    configure_record_button "Start Recording" ;;;
    configure_status "Recording stopped" "green" ;;;
    logger INFO "Stopped recording".

(** [processed_frame.copy()] *)
Definition copy (a : ndarray) : ndarray := a.

(** The conversion of a frame for the GUI in [update_frame]: to RGB, to a
    PIL image, resized, to a Tk image. *)
Definition to_imgtk (processed_frame : ndarray) : exn + photo_image :=
sum_bind (cvtColor processed_frame COLOR_BGR2RGB) (fun img =>
sum_bind (fromarray img) (fun img =>
sum_bind (resize img (640, 480)%Z LANCZOS) (fun img =>
PhotoImage img))).

(** [LandmarkDetectorGUI.update_frame]; [read] is what [self.cap.read()]
    gives when it is called: [Some frame] for [(True, frame)], [None] for
    [(False, None)]. *)
Definition update_frame (read : option ndarray) : M unit :=
  go <- getattr (fun self => running self && cap_opened self) ;;
  if go : bool then
    emit (CapRead (truthy read)) ;;;
    match read with
    | Some frame =>
        pr <- process_frame frame ;;
        let processed_frame := fst pr in
        let results := snd pr in
        assign (set_last_frame (Some (copy processed_frame))) ;;;
        assign (set_last_results (Some results)) ;;;
        rec <- getattr recording ;;
        writer <- getattr video_writer ;;
        match writer with
        | Some w =>
            if rec : bool then emit (WriterWrite w processed_frame)
            else pure tt
        | None => pure tt
        end ;;;
        action <- lift (outcome (detect_action PoseLandmark_value results)) ;;
        configure_action ("Action: " ++ action) ;;;
        imgtk <- lift (to_imgtk processed_frame) ;;
        configure_video imgtk ;;;
        rec <- getattr recording ;;
        if negb rec then
          if pose_detected results
          then configure_status "Pose detected" "green"
          else configure_status "No pose detected" "gray"
        else pure tt
    | None => pure tt
    end ;;;
    emit (After 10)
  else pure tt.

(** [LandmarkDetectorGUI.cleanup] *)
Definition cleanup : M unit :=
  logger INFO "Shutting down landmark detection system" ;;;
  assign (set_running false) ;;;
  rec <- getattr recording ;;
  writer <- getattr video_writer ;;
  match writer with
  | Some w => if rec : bool then emit (WriterRelease w) else pure tt
  | None => pure tt
  end ;;;
  emit CapRelease ;;;
  assign (set_cap_opened false) ;;;
  emit HolisticClose ;;;
  emit RootDestroy.

(** The callbacks Tk's main loop can run: the scheduled [update_frame] with
    what the camera gives it, the two buttons with the clock's reading, and
    the closing of the window. *)
Inductive callback : Type :=
| Tick (read : option ndarray)
| PressCapture (timestamp : string)
| PressRecord (timestamp : string)
| CloseWindow.

Definition dispatch (c : callback) : M unit :=
match c with
| Tick read => update_frame read
| PressCapture timestamp => capture_image timestamp
| PressRecord timestamp => toggle_recording timestamp
| CloseWindow => cleanup
end.

(** [root.mainloop()] over a sequence of callbacks.  Tk reports an exception
    raised by a callback and goes on with the next one. *)
Fixpoint mainloop (cs : list callback) (self : GUI) : GUI * list event :=
match cs with
| [] => (self, [])
| c :: rest =>
    let r := dispatch c self in
    let (self', evs) := mainloop rest (final r) in
    (self', (emitted r ++ evs)%list)
end.

(** ** Observations *)

(** The frames handed to a video writer, in order. *)
Definition written (evs : list event) : list (VideoWriter * ndarray) :=
flat_map (fun ev => match ev with
                    | WriterWrite w frame => [(w, frame)]
                    | _ => []
                    end) evs.

(** The image files written, in order. *)
Definition saved (evs : list event) : list (string * ndarray) :=
flat_map (fun ev => match ev with
                    | ImWrite file img => [(file, img)]
                    | _ => []
                    end) evs.

(** The writers constructed, in order. *)
Definition opened (evs : list event) : list VideoWriter :=
flat_map (fun ev => match ev with
                    | WriterOpen w => [w]
                    | _ => []
                    end) evs.

(** Reading the camera, writing to the recording, showing an action. *)
Definition loop_event (ev : event) : bool :=
match ev with
| CapRead _ | WriterWrite _ _ | ConfigureAction _ => true
| _ => false
end.

(** [recording] is set exactly when there is a writer. *)
Definition recording_consistent (self : GUI) : bool :=
Bool.eqb (recording self) (truthy (video_writer self)).

(** The stored frame and the stored results come from one call of
    [process_frame]. *)
Definition paired (self : GUI) : Prop :=
forall results, last_results self = Some results ->
exists frame before processed,
  result (process_frame frame before) = inr (processed, results) /\
  last_frame self = Some (copy processed).

(** A computation that leaves the object alone and does nothing outside. *)
Definition quiet {A} (m : M A) : Prop :=
forall self, final (m self) = self /\ emitted (m self) = [].

(** What follows the detector in the body of the [try] of [process_frame]:
    the last two steps of [annotate]. *)
Definition overlay (image : ndarray) (results : SolutionOutputs)
  : M (ndarray * option SolutionOutputs) :=
image <- lift (cvtColor image COLOR_RGB2BGR) ;;
image <- _draw_landmarks image results ;;
pure (image, Some results).

(** What [update_frame] shows in the status label when not recording. *)
Definition pose_status (results : option SolutionOutputs) : string * string :=
if pose_detected results then ("Pose detected", "green")
else ("No pose detected", "gray").

(** What every callback keeps: the frame rate stays; a writer is opened at
    that rate; [recording] stays in step with [video_writer]; and the stored
    frame stays paired with the stored results. *)
Definition keeps (self : GUI) (r : Run unit) : Prop :=
fps (final r) = fps self /\
(forall w, In w (opened (emitted r)) -> writer_fps w = fps self) /\
(recording_consistent self = true -> recording_consistent (final r) = true) /\
(paired self -> paired (final r)).

End Methods.

(** ** Sample data *)

Module Sample.

#[local] Open Scope float_scope.

(** A pose of 33 landmarks, as mediapipe gives it, all at mid height. *)
Definition rest : list NormalizedLandmark :=
  repeat (mkLandmark 0.5 0.5 0 1) 33.

Fixpoint put_y (l : list NormalizedLandmark) (i : nat) (v : float)
  : list NormalizedLandmark :=
  match l, i with
  | [], _ => []
  | lm :: t, O => mkLandmark (x lm) v (z lm) (visibility lm) :: t
  | lm :: t, S j => lm :: put_y t j v
  end.

Definition with_pose (l : list NormalizedLandmark) : SolutionOutputs :=
  mkOutputs None None None (Some (mkLandmarkList l)).

(** Nothing raised; only the right wrist raised; only the left; both. *)
Definition standing : SolutionOutputs := with_pose rest.
Definition right_up : SolutionOutputs := with_pose (put_y rest 16 0.2).
Definition left_up : SolutionOutputs := with_pose (put_y rest 15 0.2).
Definition both_up : SolutionOutputs :=
  with_pose (put_y (put_y rest 16 0.2) 15 0.1).

(** [both_up] seen from elsewhere: other x, z, visibility, and the nose
    moved; the four y values are the same. *)
Definition both_up_moved : SolutionOutputs :=
  mkOutputs (Some (mkLandmarkList [mkLandmark 0.1 0.9 0 1])) None None
    (Some (mkLandmarkList
       (put_y (map (fun lm => mkLandmark 0.25 (y lm) 3 0)
                   (put_y (put_y rest 16 0.2) 15 0.1)) 0 0.75))).

(** A face and a hand but no pose. *)
Definition no_pose : SolutionOutputs :=
  mkOutputs (Some (mkLandmarkList [mkLandmark 0.1 0.9 0 1]))
            (Some (mkLandmarkList [mkLandmark 0.3 0.1 0 1])) None None.

(** A small world.  A frame is a list of channel values; changing the
    colour order reverses it; the detector looks at the first value of what
    it is given and finds nothing (0), one of the poses above (1 to 4), or
    fails; drawing appends the number of landmarks drawn. *)
Definition detect (h : nat) (image : list nat)
  : (exn + SolutionOutputs) * nat :=
match image with
| 0 :: _ => (inr (mkOutputs None None None None), S h)
| 1 :: _ => (inr standing, S h)
| 2 :: _ => (inr right_up, S h)
| 3 :: _ => (inr left_up, S h)
| 4 :: _ => (inr both_up, S h)
| _ => (inl (LibraryError "detector failed"), h)
end.

Definition world : Libraries :=
{| ndarray := list nat;
   pil_image := list nat;
   photo_image := list nat;
   Holistic := nat;
   PoseLandmark_value := mp_pose;
   cvtColor := fun a _ => inr (rev a);
   process := detect;
   draw_landmarks := fun a l _ _ _ => inr (a ++ [List.length (landmark l)])%list;
   fromarray := fun a => inr a;
   resize := fun a _ _ => inr a;
   PhotoImage := fun a => inr a |}.

Definition webcam : VideoCapture := mkCapture true 640 480 30.

(** A camera that answers -1 for its frame rate. *)
Definition odd_webcam : VideoCapture := mkCapture true 640 480 (-1).

(** The object after [__init__] on [webcam]. *)
Definition fresh : GUI (L := world) :=
mkGUI (L := world) 0%nat true 640 480 30 false None "Start Recording"
      ("Ready", "gray") "Action: None" None true None None.

Definition clip : VideoWriter :=
mkWriter "recording_20250316_120000.mp4" "mp4v" 30 (640, 480)%Z.

(** The object while recording to [clip]. *)
Definition filming : GUI (L := world) :=
set_recording true (set_video_writer (Some clip) fresh).

(** The object after one turn on a frame that shows a raised right hand. *)
Definition snapped : GUI (L := world) :=
fst (mainloop [Tick (L := world) (Some [9; 7; 2]%nat)] fresh).

(** The object after [__init__] on [odd_webcam]. *)
Definition odd : GUI (L := world) :=
mkGUI (L := world) 0%nat true 640 480 (-1) false None "Start Recording"
      ("Ready", "gray") "Action: None" None true None None.

End Sample.

(** ** The annotated image, said directly *)

Section Annotation.

Context {L : Libraries}.

(** The parts of the body a result may carry, each with the connections
    and the colours it is drawn with, in the order they are drawn. *)
Definition parts (results : SolutionOutputs)
  : list (option NormalizedLandmarkList * Connections *
          (DrawingSpec * DrawingSpec)) :=
[(face_landmarks results, FACEMESH_CONTOURS, face_spec);
 (right_hand_landmarks results, HAND_CONNECTIONS, right_hand_spec);
 (left_hand_landmarks results, HAND_CONNECTIONS, left_hand_spec);
 (pose_landmarks results, POSE_CONNECTIONS, pose_spec)].

(** Drawing one part on an image, if the part was detected and nothing
    raised so far. *)
Definition draw_part (acc : exn + ndarray)
           (part : option NormalizedLandmarkList * Connections *
                   (DrawingSpec * DrawingSpec)) : exn + ndarray :=
match acc, part with
| inl e, _ => inl e
| inr image, (Some lms, conn, spec) =>
    draw_landmarks image lms conn (fst spec) (snd spec)
| inr image, (None, _, _) => inr image
end.

(** An image with the landmark overlays of a result drawn on it: every
    detected part drawn, in order, by [mp_drawing.draw_landmarks]. *)
Definition annotated_image (image : ndarray) (results : SolutionOutputs)
  : exn + ndarray :=
fold_left draw_part (parts results) (inr image).

End Annotation.

(** ** A session *)

Section Session.

Context {L : Libraries}.

(** [root.after] was called: a turn of the loop is pending. *)
Definition scheduled (evs : list event) : bool :=
existsb (fun ev => match ev with After _ => true | _ => false end) evs.

(** [root.mainloop()] as Tk runs it.  The list is what happens outside, in
    order: the timer fires (with what the camera then gives), a button is
    pressed (with the clock's reading), the window is closed.  The timer
    fires only when [update_frame] scheduled itself, so a [Tick] with
    nothing pending does not happen; an exception in a callback is reported
    and the loop goes on; [cleanup] destroys the root, which ends the
    loop. *)
Fixpoint tk_mainloop (pending : bool) (cs : list callback) (self : GUI)
  : GUI * list event :=
match cs with
| [] => (self, [])
| CloseWindow :: _ => (final (cleanup self), emitted (cleanup self))
| Tick read :: rest =>
    if pending then
      let r := update_frame read self in
      let (self', evs) := tk_mainloop (scheduled (emitted r)) rest (final r) in
      (self', (emitted r ++ evs)%list)
    else tk_mainloop pending rest self
| c :: rest =>
    let r := dispatch c self in
    let (self', evs) := tk_mainloop pending rest (final r) in
    (self', (emitted r ++ evs)%list)
end.

(** [LandmarkDetectorGUI.run]; [first] is what the camera gives the first
    [update_frame], which [run] calls itself. *)
Definition run (first : option ndarray) (cs : list callback) : M unit :=
fun self =>
  let r := seq (logger INFO
                  "Starting landmark detection GUI. Close window to quit.")
               (fun _ => update_frame first) self in
  match result r with
  | inl e => r
  | inr _ =>
      let (self', evs) := tk_mainloop (scheduled (emitted r)) cs (final r) in
      mkRun (inr tt) self' (emitted r ++ evs)%list
  end.

(** [main]: what the program does, given the detector and the capture the
    constructor obtains. *)
Definition main (h : Holistic) (cap : VideoCapture) (first : option ndarray)
           (cs : list callback) : list event :=
match __init__ h cap with
| inl e => [Log ERROR ("Application failed to start: " ++ str e)]
| inr app =>
    let r := run first cs app in
    match result r with
    | inl e =>
        (emitted r ++ [Log ERROR ("Application failed to start: " ++ str e)])%list
    | inr _ => emitted r
    end
end.

Definition writer_eqb (a b : VideoWriter) : bool :=
String.eqb (filename a) (filename b) && String.eqb (fourcc a) (fourcc b) &&
Z.eqb (writer_fps a) (writer_fps b) &&
Z.eqb (fst (frame_size a)) (fst (frame_size b)) &&
Z.eqb (snd (frame_size a)) (snd (frame_size b)).

(** The discipline of a video writer, followed along a trace: a writer is
    opened only when none is open; frames go to the open writer; the open
    writer is the one released.  [Some cur] is the writer left open (or
    none), [None] a breach. *)
Fixpoint writer_protocol (cur : option VideoWriter) (evs : list event)
  : option (option VideoWriter) :=
match evs with
| [] => Some cur
| WriterOpen w :: rest =>
    match cur with
    | None => writer_protocol (Some w) rest
    | Some _ => None
    end
| WriterWrite w _ :: rest =>
    match cur with
    | Some c => if writer_eqb c w then writer_protocol cur rest else None
    | None => None
    end
| WriterRelease w :: rest =>
    match cur with
    | Some c => if writer_eqb c w then writer_protocol None rest else None
    | None => None
    end
| _ :: rest => writer_protocol cur rest
end.

Definition writer_event (ev : event) : bool :=
match ev with
| WriterOpen _ | WriterWrite _ _ | WriterRelease _ => true
| _ => false
end.

Definition camera_release (ev : event) : bool :=
match ev with
| CapRelease => true
| _ => false
end.

(** Anything that needs a frame from the camera: a read, a frame recorded,
    an image saved, an action or a picture shown. *)
Definition feed_event (ev : event) : bool :=
match ev with
| CapRead _ | WriterWrite _ _ | ImWrite _ _ | ConfigureAction _
| ConfigureVideo _ => true
| _ => false
end.

Definition closes (c : callback) : bool :=
match c with
| CloseWindow => true
| _ => false
end.

(** What a turn of [update_frame] may do outside, the object being [self]. *)
Definition turn_event (self : GUI) (ev : event) : Prop :=
match ev with
| CapRead _ | Log ERROR _ | ConfigureStatus _ _ | ConfigureAction _
| ConfigureVideo _ | After 10 => True
| WriterWrite w _ => video_writer self = Some w /\ recording self = true
| _ => False
end.

End Session.

(** ** More sample data *)

Module Studio.

#[local] Open Scope float_scope.

(** A world like [Sample.world] whose Tk cannot make an image. *)
Definition no_display : Libraries :=
{| ndarray := list nat;
   pil_image := list nat;
   photo_image := list nat;
   Holistic := nat;
   PoseLandmark_value := mp_pose;
   cvtColor := fun a _ => inr (rev a);
   process := Sample.detect;
   draw_landmarks := fun a l _ _ _ => inr (a ++ [List.length (landmark l)])%list;
   fromarray := fun a => inr a;
   resize := fun a _ _ => inr a;
   PhotoImage := fun _ => inl (LibraryError "no display") |}.

Definition filming : GUI (L := no_display) :=
mkGUI (L := no_display) 0%nat true 640 480 30 true (Some Sample.clip)
      "Stop Recording" ("Recording", "red") "Action: None" None true None None.

(** A pose whose wrists and shoulders have no height. *)
Definition lost : SolutionOutputs :=
Sample.with_pose (repeat (mkLandmark 0.5 nan 0 0) 33).

(** A camera that could not be opened. *)
Definition unplugged : VideoCapture := mkCapture false 0 0 0.

(** A camera that answers NaN for its frame rate. *)
Definition confused : VideoCapture := mkCapture true 640 480 nan.

(** The object after [__init__] on [unplugged]. *)
Definition dark : GUI (L := Sample.world) :=
mkGUI (L := Sample.world) 0%nat false 0 0 30 false None "Start Recording"
      ("Ready", "gray") "Action: None" None true None None.

(** An afternoon at the application: two turns, a snapshot, a recording of
    one frame, and the window closed. *)
Definition afternoon : list (callback (L := Sample.world)) :=
[Tick (L := Sample.world) (Some [9; 7; 2]%nat);
 PressCapture "20250316_120000";
 PressRecord "20250316_120001";
 Tick (L := Sample.world) (Some [9; 7; 4]%nat);
 PressRecord "20250316_120002";
 CloseWindow].

End Studio.

(** * Properties of the classifier *)

Section ClassifierFacts.

Variable pose : PoseLandmark.

Lemma coordinate_present landmarks i c lm :
  nth_error landmarks i = Some lm ->
  coordinate landmarks i c = ([mkAccess i c], inr (get c lm)).
Proof. intros H. unfold coordinate. now rewrite H. Qed.

Lemma has_pose_points_lookup pl :
  has_pose_points pose pl = true ->
  exists rs rw ls lw,
    nth_error (landmark pl) (RIGHT_SHOULDER pose) = Some rs /\
    nth_error (landmark pl) (RIGHT_WRIST pose) = Some rw /\
    nth_error (landmark pl) (LEFT_SHOULDER pose) = Some ls /\
    nth_error (landmark pl) (LEFT_WRIST pose) = Some lw.
Proof.
  unfold has_pose_points. cbn [forallb].
  rewrite !andb_true_iff, !Nat.ltb_lt. intros (H1 & H2 & H3 & H4 & _).
  assert (present : forall i, i < List.length (landmark pl) ->
                              exists lm, nth_error (landmark pl) i = Some lm).
  { intros i Hi. destruct (nth_error (landmark pl) i) eqn:E; [eauto|].
    apply nth_error_None in E. lia. }
  destruct (present _ H1) as [rs Hrs], (present _ H2) as [rw Hrw],
           (present _ H3) as [ls Hls], (present _ H4) as [lw Hlw].
  exists rs, rw, ls, lw. auto.
Qed.

(** What the classifier computes once the four landmarks are found. *)
Lemma detect_action_found r pl rs rw ls lw :
  pose_landmarks r = Some pl ->
  nth_error (landmark pl) (RIGHT_SHOULDER pose) = Some rs ->
  nth_error (landmark pl) (RIGHT_WRIST pose) = Some rw ->
  nth_error (landmark pl) (LEFT_SHOULDER pose) = Some ls ->
  nth_error (landmark pl) (LEFT_WRIST pose) = Some lw ->
  detect_action pose (Some r) =
    ([mkAccess (RIGHT_SHOULDER pose) CoordY; mkAccess (RIGHT_WRIST pose) CoordY;
      mkAccess (LEFT_SHOULDER pose) CoordY; mkAccess (LEFT_WRIST pose) CoordY],
     inr (if (y rw <? y rs - 0.2)%float then "Raising Right Hand"
          else if (y lw <? y ls - 0.2)%float then "Raising Left Hand"
          else "Standing")).
Proof.
  intros Hp H1 H2 H3 H4. unfold detect_action. rewrite Hp. cbv zeta.
  rewrite (coordinate_present _ _ CoordY _ H1),
          (coordinate_present _ _ CoordY _ H2),
          (coordinate_present _ _ CoordY _ H3),
          (coordinate_present _ _ CoordY _ H4).
  cbn [bind get].
  destruct (y rw <? y rs - 0.2)%float; [reflexivity|].
  destruct (y lw <? y ls - 0.2)%float; reflexivity.
Qed.

(** C1: when the result has pose landmarks (with the four indexed ones,
    as every mediapipe pose has), [detect_action] returns "Raising Right
    Hand" if the right wrist's y is below the right shoulder's y minus 0.2,
    else "Raising Left Hand" if the left wrist's y is below the left
    shoulder's y minus 0.2, else "Standing"; when both wrists pass their
    threshold the right-hand label wins. *)
Theorem detect_action_thresholds r pl rs rw ls lw :
  pose_landmarks r = Some pl ->
  nth_error (landmark pl) (RIGHT_SHOULDER pose) = Some rs ->
  nth_error (landmark pl) (RIGHT_WRIST pose) = Some rw ->
  nth_error (landmark pl) (LEFT_SHOULDER pose) = Some ls ->
  nth_error (landmark pl) (LEFT_WRIST pose) = Some lw ->
  outcome (detect_action pose (Some r)) =
    inr (if (y rw <? y rs - 0.2)%float then "Raising Right Hand"
         else if (y lw <? y ls - 0.2)%float then "Raising Left Hand"
         else "Standing")
  /\ ((y rw <? y rs - 0.2)%float = true ->
      (y lw <? y ls - 0.2)%float = true ->
      outcome (detect_action pose (Some r)) = inr "Raising Right Hand").
Proof.
  intros Hp H1 H2 H3 H4.
  rewrite (detect_action_found _ _ _ _ _ _ Hp H1 H2 H3 H4).
  split; [reflexivity|].
  intros Hr _. cbn [outcome snd]. now rewrite Hr.
Qed.

(** Every coordinate the classifier reads is the y of one of the four
    landmarks, also when it raises on a missing one. *)
Lemma detect_action_reads_only_ys results a :
In a (reads (detect_action pose results)) ->
at_coord a = CoordY /\
In (at_index a) [RIGHT_SHOULDER pose; RIGHT_WRIST pose;
                 LEFT_SHOULDER pose; LEFT_WRIST pose].
Proof.
unfold detect_action.
destruct results as [r|]; [|intros []].
destruct (pose_landmarks r) as [pl|]; [|intros []].
cbv zeta. unfold coordinate.
destruct (nth_error (landmark pl) (RIGHT_SHOULDER pose)); [|intros []].
destruct (nth_error (landmark pl) (RIGHT_WRIST pose)).
2:{ cbn. intros [<-|[]]. cbn. auto. }
destruct (nth_error (landmark pl) (LEFT_SHOULDER pose)).
2:{ cbn. intros [<-|[<-|[]]]; cbn; auto. }
destruct (nth_error (landmark pl) (LEFT_WRIST pose)).
2:{ cbn. intros [<-|[<-|[<-|[]]]]; cbn; auto. }
cbn [bind get].
destruct (_ <? _)%float; [|destruct (_ <? _)%float];
  cbn; intros [<-|[<-|[<-|[<-|[]]]]]; cbn; auto 6.
Qed.

(** The classifier is a function of the four y values. *)
Lemma detect_action_of_ys pl1 pl2 r1 r2 :
pose_landmarks r1 = Some pl1 ->
pose_landmarks r2 = Some pl2 ->
pose_ys pose pl1 = pose_ys pose pl2 ->
detect_action pose (Some r1) = detect_action pose (Some r2).
Proof.
intros H1 H2 E. unfold detect_action. rewrite H1, H2. cbv zeta.
unfold pose_ys in E. cbn [map] in E.
injection E as E1 E2 E3 E4.
unfold coordinate.
destruct (nth_error (landmark pl1) (RIGHT_SHOULDER pose)) as [a1|],
         (nth_error (landmark pl2) (RIGHT_SHOULDER pose)) as [a2|];
  cbn in E1; try discriminate; [|reflexivity].
destruct (nth_error (landmark pl1) (RIGHT_WRIST pose)) as [b1|],
         (nth_error (landmark pl2) (RIGHT_WRIST pose)) as [b2|];
  cbn in E2; try discriminate; [|reflexivity].
destruct (nth_error (landmark pl1) (LEFT_SHOULDER pose)) as [c1|],
         (nth_error (landmark pl2) (LEFT_SHOULDER pose)) as [c2|];
  cbn in E3; try discriminate; [|reflexivity].
destruct (nth_error (landmark pl1) (LEFT_WRIST pose)) as [d1|],
         (nth_error (landmark pl2) (LEFT_WRIST pose)) as [d2|];
  cbn in E4; try discriminate; [|reflexivity].
cbn [bind get].
injection E1 as ->. injection E2 as ->. injection E3 as ->. injection E4 as ->.
reflexivity.
Qed.

(** On a well-formed input the classifier returns. *)
Lemma detect_action_returns results :
well_formed pose results = true ->
exists l, outcome (detect_action pose results) = inr l.
Proof.
intros W. destruct results as [r|]; [|now exists "None"].
unfold well_formed in W.
destruct (pose_landmarks r) as [pl|] eqn:Hp.
- destruct (has_pose_points_lookup _ W)
    as (rs & rw & ls & lw & H1 & H2 & H3 & H4).
  rewrite (detect_action_found _ _ _ _ _ _ Hp H1 H2 H3 H4). cbn. eauto.
- exists "None". unfold detect_action. now rewrite Hp.
Qed.

(** C2, amended: the result of [detect_action] is one of four strings: one
    of the three labels when the results carry pose landmarks, and "None"
    when the results are absent or carry no pose landmarks. *)
Theorem detect_action_four_labels results :
well_formed pose results = true ->
exists l,
  outcome (detect_action pose results) = inr l /\
  In l ("None" :: action_labels) /\
  (if pose_detected results then In l action_labels else l = "None").
Proof.
intros W. destruct results as [r|].
2:{ exists "None". cbn. auto. }
unfold well_formed in W. unfold pose_detected.
destruct (pose_landmarks r) as [pl|] eqn:Hp.
2:{ exists "None". unfold detect_action. rewrite Hp. cbn. auto. }
cbn [truthy].
destruct (has_pose_points_lookup _ W) as (rs & rw & ls & lw & H1 & H2 & H3 & H4).
rewrite (detect_action_found _ _ _ _ _ _ Hp H1 H2 H3 H4). cbn [outcome snd].
destruct (_ <? _)%float; [|destruct (_ <? _)%float];
  eexists; (split; [reflexivity|]); cbn; auto 6.
Qed.

(** C3: when the results object is absent, or its [pose_landmarks] is
    absent, [detect_action] returns the string "None" and has read no
    landmark coordinate. *)
Theorem detect_action_guard results :
results = None \/ (exists r, results = Some r /\ pose_landmarks r = None) ->
outcome (detect_action pose results) = inr "None" /\
reads (detect_action pose results) = [].
Proof.
intros [->|(r & -> & Hp)]; unfold detect_action; [|rewrite Hp]; auto.
Qed.

(** C6: two results with pose landmarks that agree on the y values of the
    right shoulder, right wrist, left shoulder and left wrist get the same
    answer from [detect_action], whatever their other coordinates, other
    landmarks and other fields are; and the only coordinates it reads are
    those four y values. *)
Theorem detect_action_depends_on_four_ys r1 r2 pl1 pl2 :
pose_landmarks r1 = Some pl1 ->
pose_landmarks r2 = Some pl2 ->
pose_ys pose pl1 = pose_ys pose pl2 ->
outcome (detect_action pose (Some r1)) = outcome (detect_action pose (Some r2))
/\ forall a, In a (reads (detect_action pose (Some r1))) ->
             at_coord a = CoordY /\
             In (at_index a) [RIGHT_SHOULDER pose; RIGHT_WRIST pose;
                              LEFT_SHOULDER pose; LEFT_WRIST pose].
Proof.
intros H1 H2 E. split.
- now rewrite (detect_action_of_ys _ _ _ _ H1 H2 E).
- intros a. apply detect_action_reads_only_ys.
Qed.

End ClassifierFacts.


(** C2 as stated fails: with no results the answer is "None", which is none
    of the three labels. *)
Lemma detect_action_fourth_label :
outcome (detect_action mp_pose None) = inr "None" /\
~ In "None" action_labels.
Proof.
split; [reflexivity|].
cbn. intros [H|[H|[H|[]]]]; discriminate H.
Qed.

(** The classifier on the samples. *)
Lemma detect_action_thresholds_witness :
outcome (detect_action mp_pose (Some Sample.both_up)) = inr "Raising Right Hand".
Proof.
refine (proj2 (detect_action_thresholds mp_pose Sample.both_up
          (mkLandmarkList (Sample.put_y (Sample.put_y Sample.rest 16 0.2) 15 0.1))
          (mkLandmark 0.5 0.5 0 1) (mkLandmark 0.5 0.2 0 1)
          (mkLandmark 0.5 0.5 0 1) (mkLandmark 0.5 0.1 0 1)
          _ _ _ _ _) _ _); reflexivity.
Defined.

Lemma detect_action_four_labels_witness :
exists l,
  outcome (detect_action mp_pose (Some Sample.left_up)) = inr l /\
  In l ("None" :: action_labels) /\
  In l action_labels.
Proof.
apply (detect_action_four_labels mp_pose (Some Sample.left_up)). reflexivity.
Defined.

Lemma detect_action_guard_witness :
outcome (detect_action mp_pose (Some Sample.no_pose)) = inr "None" /\
reads (detect_action mp_pose (Some Sample.no_pose)) = [].
Proof.
apply (detect_action_guard mp_pose (Some Sample.no_pose)).
right. exists Sample.no_pose. split; reflexivity.
Defined.

Lemma detect_action_depends_on_four_ys_witness :
outcome (detect_action mp_pose (Some Sample.both_up)) =
outcome (detect_action mp_pose (Some Sample.both_up_moved)).
Proof.
refine (proj1 (detect_action_depends_on_four_ys mp_pose
          Sample.both_up Sample.both_up_moved _ _ _ _ _)); reflexivity.
Defined.

(** * Properties of the application *)

Section AppFacts.

Context {L : Libraries}.

#[local] Open Scope Z_scope.

Ltac run_method :=
  cbv [seq try_except getattr assign emit lift pure throw logger
       configure_status configure_action configure_record_button
       configure_video];
  cbn [result final emitted].

(** ** The frame rate *)

Lemma int_or_nonzero n d : d <> 0 -> int_or n d <> 0.
Proof.
intros Hd. unfold int_or. destruct (n =? 0) eqn:E; [exact Hd|].
now apply Z.eqb_neq.
Qed.

Lemma int_or_positive n : 0 < int_or n 30 <-> 0 <= n.
Proof.
unfold int_or. destruct (n =? 0) eqn:E.
- apply Z.eqb_eq in E. lia.
- apply Z.eqb_neq in E. lia.
Qed.

Lemma init_fps h cap g :
__init__ h cap = inr g ->
exists reported,
  int_of_float (CAP_PROP_FPS cap) = inr reported /\
  fps g = int_or reported 30.
Proof.
unfold __init__, sum_bind.
destruct (int_of_float (CAP_PROP_FRAME_WIDTH cap)); [discriminate|].
destruct (int_of_float (CAP_PROP_FRAME_HEIGHT cap)); [discriminate|].
destruct (int_of_float (CAP_PROP_FPS cap)) as [|reported]; [discriminate|].
intros [= <-]. exists reported. split; reflexivity.
Qed.

(** ** Processing a frame *)

Lemma quiet_lift {A} (r : exn + A) : quiet (lift r).
Proof. intros self. split; reflexivity. Qed.

Lemma quiet_pure {A} (a : A) : quiet (pure a).
Proof. intros self. split; reflexivity. Qed.

Lemma quiet_seq {A B} (m : M A) (f : A -> M B) :
quiet m -> (forall a, quiet (f a)) -> quiet (seq m f).
Proof.
intros Hm Hf self. unfold seq. destruct (Hm self) as [Hs He].
destruct (m self) as [[e|a] s evs]; cbn [final emitted] in *; subst s evs;
  [auto|].
destruct (Hf a self) as [Hs' He'].
destruct (f a self) as [r s' evs']. cbn [final emitted] in *. subst. auto.
Qed.

Lemma quiet_draw_if lms conn spec image : quiet (draw_if lms conn spec image).
Proof.
unfold draw_if. destruct lms; [apply quiet_lift|apply quiet_pure].
Qed.

Lemma quiet_draw_landmarks image results : quiet (_draw_landmarks image results).
Proof.
unfold _draw_landmarks.
repeat (apply quiet_seq; [apply quiet_draw_if|intros ?]).
apply quiet_draw_if.
Qed.

(** Sequencing after a quiet computation. *)
Lemma seq_quiet {A B} (m : M A) (f : A -> M B) self :
quiet m ->
seq m f self =
match result (m self) with
| inl e => mkRun (inl e) self []
| inr a => f a self
end.
Proof.
intros Q. destruct (Q self) as [Hs He]. unfold seq.
destruct (m self) as [[e|a] s evs]; cbn [result final emitted] in *;
  subst s evs; [reflexivity|].
now destruct (f a self).
Qed.

(** Sequencing after the detector. *)
Lemma seq_holistic_process {B} image (f : SolutionOutputs -> M B) self :
seq (holistic_process image) f self =
match process (holistic self) image with
| (inl e, h) => mkRun (inl e) (set_holistic h self) []
| (inr results, h) => f results (set_holistic h self)
end.
Proof.
unfold seq, holistic_process.
destruct (process (holistic self) image) as [[e|results] h]; [reflexivity|].
now destruct (f results (set_holistic h self)).
Qed.

Lemma quiet_overlay image results : quiet (overlay image results).
Proof.
unfold overlay.
apply quiet_seq; [apply quiet_lift|intros bgr].
apply quiet_seq; [apply quiet_draw_landmarks|intros img]. apply quiet_pure.
Qed.

Lemma overlay_value image results img res self :
result (overlay image results self) = inr (img, res) -> res = Some results.
Proof.
unfold overlay. rewrite seq_quiet by apply quiet_lift. cbn [lift result].
destruct (cvtColor image COLOR_RGB2BGR) as [e|bgr]; [discriminate|].
rewrite seq_quiet by apply quiet_draw_landmarks.
destruct (result (_draw_landmarks bgr results self)); [discriminate|].
cbn [pure result]. now intros [= _ <-].
Qed.

(** The body of the [try], step by step. *)
Lemma annotate_steps frame self :
annotate frame self =
match cvtColor frame COLOR_BGR2RGB with
| inl e => mkRun (inl e) self []
| inr rgb =>
    match process (holistic self) rgb with
    | (inl e, h) => mkRun (inl e) (set_holistic h self) []
    | (inr results, h) => overlay rgb results (set_holistic h self)
    end
end.
Proof.
unfold annotate. rewrite seq_quiet by apply quiet_lift. cbn [lift result].
destruct (cvtColor frame COLOR_BGR2RGB) as [e|rgb]; [reflexivity|].
now rewrite seq_holistic_process.
Qed.

(** The body of the [try] touches the detector only and does nothing
    outside. *)
Lemma annotate_effects frame self :
emitted (annotate frame self) = [] /\
exists h, final (annotate frame self) = set_holistic h self.
Proof.
assert (same : self = set_holistic (holistic self) self) by now destruct self.
rewrite annotate_steps.
destruct (cvtColor frame COLOR_BGR2RGB) as [e|rgb].
{ split; [reflexivity|]. now exists (holistic self). }
destruct (process (holistic self) rgb) as [[e|results] h].
{ split; [reflexivity|]. now exists h. }
destruct (quiet_overlay rgb results (set_holistic h self)) as [Hs He].
rewrite Hs, He. split; [reflexivity|]. now exists h.
Qed.

(** When the body returns, it returns detection results. *)
Lemma annotate_value frame self image res :
result (annotate frame self) = inr (image, res) ->
exists results, res = Some results.
Proof.
rewrite annotate_steps.
destruct (cvtColor frame COLOR_BGR2RGB) as [e|rgb]; [discriminate|].
destruct (process (holistic self) rgb) as [[e|results] h]; [discriminate|].
intros H. exists results. exact (overlay_value _ _ _ _ _ H).
Qed.

(** [process_frame] by cases on its guarded body. *)
Lemma process_frame_cases frame self :
process_frame frame self =
match result (annotate frame self) with
| inr _ => annotate frame self
| inl e =>
    mkRun (inr (frame, None))
          (set_status_label ("Error: " ++ str e, "red")%string
             (final (annotate frame self)))
          [Log ERROR ("Error processing frame: " ++ str e)%string;
           ConfigureStatus ("Error: " ++ str e)%string "red"]
end.
Proof.
unfold process_frame, try_except.
destruct (annotate_effects frame self) as [He _].
destruct (annotate frame self) as [[e|v] s evs]; cbn [result final emitted] in *;
  [|reflexivity].
subst evs. unfold fallback. run_method. reflexivity.
Qed.

(** [process_frame] assigns no field but the detector and the status
    label. *)
Lemma process_frame_fields frame self :
exists h lbl,
  final (process_frame frame self) = set_status_label lbl (set_holistic h self).
Proof.
rewrite process_frame_cases.
destruct (annotate_effects frame self) as [_ [h Hh]].
destruct (result (annotate frame self)) as [e|v].
- cbn [final]. rewrite Hh. eauto.
- rewrite Hh. exists h, (status_label self). now destruct self.
Qed.

(** [_draw_landmarks] draws the annotated image and does nothing else. *)
Lemma draw_landmarks_run image results self :
_draw_landmarks image results self =
mkRun (annotated_image image results) self [].
Proof.
unfold _draw_landmarks, annotated_image, parts. cbn [fold_left].
unfold draw_part, draw_if. run_method.
destruct (face_landmarks results) as [f|]; cbn [fst snd];
  [destruct (draw_landmarks image f _ _ _) as [e|image1]|];
  try reflexivity;
  (destruct (right_hand_landmarks results) as [rh|]; cbn [fst snd];
   [destruct (draw_landmarks _ rh _ _ _) as [e|image2]|]);
  try reflexivity;
  (destruct (left_hand_landmarks results) as [lh|]; cbn [fst snd];
   [destruct (draw_landmarks _ lh _ _ _) as [e|image3]|]);
  try reflexivity;
  (destruct (pose_landmarks results) as [p|]; cbn [fst snd];
   [destruct (draw_landmarks _ p _ _ _) as [e|image4]|]);
  reflexivity.
Qed.

(** The last two steps of the body of the [try]. *)
Lemma overlay_run rgb results self :
overlay rgb results self =
match cvtColor rgb COLOR_RGB2BGR with
| inl e => mkRun (inl e) self []
| inr bgr =>
    match annotated_image bgr results with
    | inl e => mkRun (inl e) self []
    | inr image => mkRun (inr (image, Some results)) self []
    end
end.
Proof.
unfold overlay. rewrite seq_quiet by apply quiet_lift. cbn [lift result].
destruct (cvtColor rgb COLOR_RGB2BGR) as [e|bgr]; [reflexivity|].
rewrite seq_quiet by apply quiet_draw_landmarks.
rewrite draw_landmarks_run. cbn [result].
destruct (annotated_image bgr results); reflexivity.
Qed.

(** C4: [process_frame] never raises, and does one of two things.  Either
    every step went through (the frame converted to RGB, the detector run on
    it, the image converted back to BGR, each detected part drawn on it),
    and it returns that annotated image with the detector's results, doing
    nothing else; or one of these steps raised, and it returns the frame it
    was given, unchanged, with [None], having logged the error and shown it
    in the status label. *)
Theorem process_frame_annotated_or_fallback frame self :
(exists rgb results h bgr image,
   cvtColor frame COLOR_BGR2RGB = inr rgb /\
   process (holistic self) rgb = (inr results, h) /\
   cvtColor rgb COLOR_RGB2BGR = inr bgr /\
   annotated_image bgr results = inr image /\
   process_frame frame self =
     mkRun (inr (image, Some results)) (set_holistic h self) [])
\/
(exists e h,
   (cvtColor frame COLOR_BGR2RGB = inl e /\ h = holistic self \/
    (exists rgb,
       cvtColor frame COLOR_BGR2RGB = inr rgb /\
       process (holistic self) rgb = (inl e, h)) \/
    (exists rgb results,
       cvtColor frame COLOR_BGR2RGB = inr rgb /\
       process (holistic self) rgb = (inr results, h) /\
       cvtColor rgb COLOR_RGB2BGR = inl e) \/
    (exists rgb results bgr,
       cvtColor frame COLOR_BGR2RGB = inr rgb /\
       process (holistic self) rgb = (inr results, h) /\
       cvtColor rgb COLOR_RGB2BGR = inr bgr /\
       annotated_image bgr results = inl e)) /\
   process_frame frame self =
     mkRun (inr (frame, None))
           (set_status_label (("Error: " ++ str e)%string, "red"%string)
              (set_holistic h self))
           [Log ERROR ("Error processing frame: " ++ str e)%string;
            ConfigureStatus ("Error: " ++ str e)%string "red"]).
Proof.
assert (same : set_holistic (holistic self) self = self) by now destruct self.
rewrite process_frame_cases, annotate_steps.
destruct (cvtColor frame COLOR_BGR2RGB) as [e|rgb] eqn:E1.
{ right. exists e, (holistic self). cbn [result final]. rewrite same. auto. }
destruct (process (holistic self) rgb) as [[e|results] h] eqn:E2.
{ right. exists e, h. cbn [result final]. split; [|reflexivity].
  right. left. now exists rgb. }
rewrite overlay_run.
destruct (cvtColor rgb COLOR_RGB2BGR) as [e|bgr] eqn:E3.
{ right. exists e, h. cbn [result final]. split; [|reflexivity].
  right. right. left. now exists rgb, results. }
destruct (annotated_image bgr results) as [e|image] eqn:E4.
{ right. exists e, h. cbn [result final]. split; [|reflexivity].
  right. right. right. now exists rgb, results, bgr. }
left. exists rgb, results, h, bgr, image. cbn [result]. auto.
Qed.

(** ** Recording *)

(** [toggle_recording] when not recording. *)
Lemma toggle_recording_start timestamp self :
recording self = false ->
let file := ("recording_" ++ timestamp ++ ".mp4")%string in
let w := mkWriter file "mp4v" (fps self) (frame_width self, frame_height self) in
toggle_recording timestamp self =
mkRun (inr tt)
      (set_status_label (("Recording: " ++ file)%string, "red"%string)
         (set_record_button "Stop Recording"
            (set_recording true (set_video_writer (Some w) self))))
      [WriterOpen w; ConfigureRecordButton "Stop Recording";
       ConfigureStatus ("Recording: " ++ file)%string "red";
       Log INFO ("Started recording: " ++ file)%string].
Proof.
intros H. cbv zeta. unfold toggle_recording. run_method. rewrite H.
reflexivity.
Qed.

(** [toggle_recording] when recording. *)
Lemma toggle_recording_stop timestamp self :
recording self = true ->
toggle_recording timestamp self =
mkRun (inr tt)
      (set_status_label ("Recording stopped"%string, "green"%string)
         (set_record_button "Start Recording"
            (match video_writer self with
             | Some _ => set_video_writer None (set_recording false self)
             | None => set_recording false self
             end)))
      (match video_writer self with
       | Some w => [WriterRelease w]
       | None => []
       end ++
       [ConfigureRecordButton "Start Recording";
        ConfigureStatus "Recording stopped" "green";
        Log INFO "Stopped recording"])%list.
Proof.
intros H. unfold toggle_recording. run_method. rewrite H. cbn [negb].
destruct self as [? ? ? ? ? ? [w|] ? ? ? ? ? ? ?]; reflexivity.
Qed.

(** C9: after [__init__] and after every call of [toggle_recording],
    [recording] is set exactly when [video_writer] is not [None]; each call
    returns and flips [recording], so two calls in a row restore it. *)
Theorem recording_matches_writer :
(forall h cap g, __init__ h cap = inr g ->
   (recording g = true <-> video_writer g <> None)) /\
(forall timestamp self,
   let self' := final (toggle_recording timestamp self) in
   result (toggle_recording timestamp self) = inr tt /\
   (recording self' = true <-> video_writer self' <> None) /\
   recording self' = negb (recording self)) /\
(forall t1 t2 self,
   recording (final (toggle_recording t2 (final (toggle_recording t1 self)))) =
   recording self).
Proof.
assert (flip : forall timestamp self,
          recording (final (toggle_recording timestamp self)) =
          negb (recording self)).
{ intros timestamp self. destruct (recording self) eqn:R.
  - rewrite (toggle_recording_stop _ _ R). cbn [final].
    now destruct (video_writer self).
  - now rewrite (toggle_recording_start _ _ R). }
split; [|split].
- intros h cap g. unfold __init__, sum_bind.
  destruct (int_of_float (CAP_PROP_FRAME_WIDTH cap)); [discriminate|].
  destruct (int_of_float (CAP_PROP_FRAME_HEIGHT cap)); [discriminate|].
  destruct (int_of_float (CAP_PROP_FPS cap)); [discriminate|].
  intros [= <-]. cbn. split; [discriminate|]. intros H. now elim H.
- intros timestamp self. cbv zeta. split; [|split].
  + destruct (recording self) eqn:R.
    * now rewrite (toggle_recording_stop _ _ R).
    * now rewrite (toggle_recording_start _ _ R).
  + destruct (recording self) eqn:R.
    * rewrite (toggle_recording_stop _ _ R). cbn [final].
      destruct (video_writer self) eqn:W; cbn; rewrite ?W;
        (split; [discriminate|intros H; now elim H]).
    * rewrite (toggle_recording_start _ _ R). cbn.
      split; [discriminate|reflexivity].
  + apply flip.
- intros t1 t2 self. rewrite !flip. apply negb_involutive.
Qed.

(** ** Saving a snapshot *)

(** [capture_image] by cases on what [update_frame] stored. *)
Lemma capture_image_cases timestamp self :
capture_image timestamp self =
match last_results self with
| Some None =>
    mkRun (inl (AttributeError
                  "'NoneType' object has no attribute 'pose_landmarks'"))
          self []
| Some (Some (mkOutputs _ _ _ (Some _))) =>
    let file := ("capture_" ++ timestamp ++ ".jpg")%string in
    match last_frame self with
    | Some img =>
        mkRun (inr tt)
              (set_status_label (("Saved: " ++ file)%string, "green"%string) self)
              [ImWrite file img; Log INFO ("Image saved as " ++ file)%string;
               ConfigureStatus ("Saved: " ++ file)%string "green"]
    | None =>
        mkRun (inl (AttributeError
                 "'LandmarkDetectorGUI' object has no attribute 'last_frame'"))
              self []
    end
| _ =>
    mkRun (inr tt)
          (set_status_label ("No pose detected!"%string, "orange"%string) self)
          [Log WARNING "No pose landmarks detected to capture!";
           ConfigureStatus "No pose detected!" "orange"]
end.
Proof.
unfold capture_image. run_method.
destruct (last_results self) as [[[? ? ? [pl|]]|]|]; cbn; try reflexivity.
destruct (last_frame self); reflexivity.
Qed.

(** C8: [capture_image] writes an image file exactly when [last_results]
    is set and holds a result with pose landmarks.  The file holds
    [last_frame], the frame [process_frame] returned together with that
    result, so no snapshot is of a frame without a detected pose.  When no
    file is written, nothing of the object changes but, at most, the status
    label. *)
Theorem capture_image_needs_pose timestamp self :
paired self ->
let r := capture_image timestamp self in
(saved (emitted r) <> [] <->
 exists results, last_results self = Some (Some results) /\
                 pose_landmarks results <> None) /\
(forall file img, In (file, img) (saved (emitted r)) ->
   file = ("capture_" ++ timestamp ++ ".jpg")%string /\
   last_frame self = Some img /\
   exists frame before results,
     result (process_frame frame before) = inr (img, Some results) /\
     pose_landmarks results <> None) /\
(saved (emitted r) = [] -> exists lbl, final r = set_status_label lbl self).
Proof.
intros Inv. cbv zeta. rewrite capture_image_cases.
assert (same : self = set_status_label (status_label self) self)
  by now destruct self.
unfold paired in Inv.
destruct (last_results self) as [[[f rh lh [pl|]]|]|].
- destruct (Inv _ eq_refl) as (frame & before & processed & Hp & Hf).
  rewrite Hf. cbv zeta. cbn [emitted final saved flat_map app].
  split; [|split].
  + split; [|discriminate]. intros _. eexists. split; [reflexivity|].
    cbn. discriminate.
  + intros file img' [[= <- <-]|[]]. repeat split.
    exists frame, before, (mkOutputs f rh lh (Some pl)).
    split; [exact Hp|cbn; discriminate].
  + discriminate.
- cbn [emitted final saved flat_map app]. split; [|split].
  + split; [intros H; now elim H|].
    intros (results & [= <-] & H). now elim H.
  + intros file img [].
  + eauto.
- cbn [emitted final saved flat_map app]. split; [|split].
  + split; [intros H; now elim H|]. intros (results & [=] & _).
  + intros file img [].
  + intros _. now exists (status_label self).
- cbn [emitted final saved flat_map app]. split; [|split].
  + split; [intros H; now elim H|]. intros (results & [=] & _).
  + intros file img [].
  + eauto.
Qed.

(** ** One turn of the loop *)

Lemma process_frame_returns frame self :
exists processed results,
  result (process_frame frame self) = inr (processed, results).
Proof.
rewrite process_frame_cases.
destruct (result (annotate frame self)) as [e|[img res]] eqn:E.
- cbn [result]. eauto.
- rewrite E. eauto.
Qed.

(** [update_frame] on a frame, step by step. *)
Lemma update_frame_steps frame self processed results :
running self = true ->
cap_opened self = true ->
result (process_frame frame self) = inr (processed, results) ->
let processing := process_frame frame self in
let stored :=
  set_last_results (Some results)
    (set_last_frame (Some processed) (final processing)) in
let sofar :=
  (CapRead true :: emitted processing ++
   match video_writer self with
   | Some w => if recording self then [WriterWrite w processed] else []
   | None => []
   end)%list in
update_frame (Some frame) self =
match outcome (detect_action PoseLandmark_value results) with
| inl e => mkRun (inl e) stored sofar
| inr action =>
    let text := ("Action: " ++ action)%string in
    match to_imgtk processed with
    | inl e =>
        mkRun (inl e) (set_action_label text stored)
              (sofar ++ [ConfigureAction text])%list
    | inr imgtk =>
        let shown := set_video_label (Some imgtk) (set_action_label text stored) in
        if recording self then
          mkRun (inr tt) shown
                (sofar ++ [ConfigureAction text; ConfigureVideo imgtk;
                           After 10])%list
        else
          mkRun (inr tt) (set_status_label (pose_status results) shown)
                (sofar ++ [ConfigureAction text; ConfigureVideo imgtk;
                           ConfigureStatus (fst (pose_status results))
                                           (snd (pose_status results));
                           After 10])%list
    end
end.
Proof.
intros Hrun Hcap Hres. cbv zeta.
destruct (process_frame_fields frame self) as (h & lbl & Hfin).
unfold update_frame. run_method. rewrite Hrun, Hcap. cbn [andb truthy].
destruct (process_frame frame self) as [res fin evs].
cbn [result final emitted] in *. subst res fin. cbn [fst snd].
unfold pose_status.
destruct self as [? ? ? ? ? rec [w|] ? ? ? ? ? ? ?]; cbn;
  destruct (outcome (detect_action PoseLandmark_value results)) as [e|action];
  cbn; try (destruct rec; cbn; rewrite <- ?app_assoc; reflexivity);
  destruct (to_imgtk processed) as [e|imgtk]; cbn;
  destruct rec; cbn; try destruct (pose_detected results); cbn;
  rewrite <- ?app_assoc; cbn; rewrite ?app_nil_r; reflexivity.
Qed.

Lemma process_frame_emitted frame self :
emitted (process_frame frame self) = [] \/
exists e, emitted (process_frame frame self) =
          [Log ERROR ("Error processing frame: " ++ str e)%string;
           ConfigureStatus ("Error: " ++ str e)%string "red"].
Proof.
rewrite process_frame_cases.
destruct (result (annotate frame self)) as [e|v].
- right. now exists e.
- left. apply annotate_effects.
Qed.

Lemma written_app evs evs' :
written (evs ++ evs') = (written evs ++ written evs')%list.
Proof. apply flat_map_app. Qed.

Lemma written_process_frame frame self :
written (emitted (process_frame frame self)) = [].
Proof.
destruct (process_frame_emitted frame self) as [->|[e ->]]; reflexivity.
Qed.


(** [update_frame] when stopped or when the camera is closed. *)
Lemma update_frame_idle read self :
running self && cap_opened self = false ->
update_frame read self = mkRun (inr tt) self [].
Proof.
intros H. unfold update_frame. run_method. now rewrite H.
Qed.

(** [update_frame] when the camera gives no frame. *)
Lemma update_frame_no_frame self :
running self && cap_opened self = true ->
update_frame None self = mkRun (inr tt) self [CapRead false; After 10].
Proof.
intros H. unfold update_frame. run_method. now rewrite H.
Qed.

(** [cleanup], step by step. *)
Lemma cleanup_steps self :
cleanup self =
mkRun (inr tt) (set_cap_opened false (set_running false self))
      (Log INFO "Shutting down landmark detection system" ::
       match video_writer self with
       | Some w => if recording self then [WriterRelease w] else []
       | None => []
       end ++ [CapRelease; HolisticClose; RootDestroy])%list.
Proof.
unfold cleanup. run_method.
destruct self as [? ? ? ? ? [|] [w|] ? ? ? ? ? ? ?]; reflexivity.
Qed.

Lemma filter_loop_process_frame frame self :
filter loop_event (emitted (process_frame frame self)) = [].
Proof.
destruct (process_frame_emitted frame self) as [->|[e ->]]; reflexivity.
Qed.

(** C7, amended: on an [update_frame] turn that reads a frame the loop, in
    this order: reads the camera; processes the frame and stores the
    processed frame and the results as [last_frame] and [last_results];
    writes the processed frame to the writer when recording; classifies the
    pose and shows the label; converts the frame and shows it; updates the
    status when not recording; schedules the next turn.  The classifier and
    the conversion are not guarded: when one of them raises, the turn raises
    and stops at that step, with the steps before it done and nothing after
    it, so without the picture and without the next turn.  No other method
    reads the camera, writes to the recording or shows an action. *)
Theorem update_frame_is_the_loop frame self processed results :
running self = true ->
cap_opened self = true ->
result (process_frame frame self) = inr (processed, results) ->
let r := update_frame (Some frame) self in
let sofar :=
  ([CapRead true] ++ emitted (process_frame frame self) ++
   match video_writer self with
   | Some w => if recording self then [WriterWrite w processed] else []
   | None => []
   end)%list in
(last_frame (final r) = Some processed /\
 last_results (final r) = Some results /\
 match outcome (detect_action PoseLandmark_value results) with
 | inl e =>
     result r = inl e /\ emitted r = sofar /\
     action_label (final r) = action_label self /\
     video_label (final r) = video_label self
 | inr action =>
     action_label (final r) = ("Action: " ++ action)%string /\
     match to_imgtk processed with
     | inl e =>
         result r = inl e /\
         emitted r =
           (sofar ++ [ConfigureAction ("Action: " ++ action)%string])%list /\
         video_label (final r) = video_label self
     | inr imgtk =>
         result r = inr tt /\
         emitted r =
           (sofar ++
            [ConfigureAction ("Action: " ++ action)%string;
             ConfigureVideo imgtk] ++
            (if recording self then []
             else [ConfigureStatus (fst (pose_status results))
                                   (snd (pose_status results))]) ++
            [After 10])%list /\
         video_label (final r) = Some imgtk
     end
 end) /\
(forall image s, filter loop_event (emitted (process_frame image s)) = []) /\
(forall timestamp s,
   filter loop_event (emitted (capture_image timestamp s)) = []) /\
(forall timestamp s,
   filter loop_event (emitted (toggle_recording timestamp s)) = []) /\
(forall s, filter loop_event (emitted (cleanup s)) = []).
Proof.
intros Hrun Hcap Hres. cbv zeta. split; [|repeat split].
- rewrite (update_frame_steps _ _ _ _ Hrun Hcap Hres). cbv zeta.
  destruct (process_frame_fields frame self) as (h & lbl & Hfin).
  destruct (outcome (detect_action PoseLandmark_value results)) as [e|action];
    [|destruct (to_imgtk processed) as [e|imgtk];
      [|destruct (recording self) eqn:R]];
    cbn [result final emitted app]; rewrite <- ?app_assoc; cbn [app];
    rewrite ?Hfin;
    (split; [reflexivity|]); (split; [reflexivity|]);
    repeat (split; [try reflexivity; now destruct self|]);
    try reflexivity; now destruct self.
- intros image s. apply filter_loop_process_frame.
- intros timestamp s. rewrite capture_image_cases.
  destruct (last_results s) as [[[? ? ? [pl|]]|]|]; try reflexivity.
  cbv zeta. destruct (last_frame s); reflexivity.
- intros timestamp s. destruct (recording s) eqn:R.
  + rewrite (toggle_recording_stop _ _ R). cbn [emitted].
    destruct (video_writer s); reflexivity.
  + now rewrite (toggle_recording_start _ _ R).
- intros s. rewrite cleanup_steps. cbn [emitted].
  destruct (video_writer s); [destruct (recording s)|]; reflexivity.
Qed.

(** ** Runs of the main loop *)

Lemma opened_app evs evs' :
opened (evs ++ evs') = (opened evs ++ opened evs')%list.
Proof. apply flat_map_app. Qed.

Lemma opened_process_frame frame self :
opened (emitted (process_frame frame self)) = [].
Proof.
destruct (process_frame_emitted frame self) as [->|[e ->]]; reflexivity.
Qed.

(** [update_frame] opens no writer. *)
Lemma opened_update_frame read self :
opened (emitted (update_frame read self)) = [].
Proof.
destruct (running self && cap_opened self) eqn:G.
2:{ now rewrite (update_frame_idle _ _ G). }
destruct read as [frame|].
2:{ now rewrite (update_frame_no_frame _ G). }
apply andb_true_iff in G. destruct G as [Hrun Hcap].
destruct (process_frame_returns frame self) as (processed & results & Hres).
rewrite (update_frame_steps _ _ _ _ Hrun Hcap Hres). cbv zeta.
destruct (outcome (detect_action PoseLandmark_value results));
  [|destruct (to_imgtk processed); [|destruct (recording self) eqn:R]];
  cbn [emitted];
  change (CapRead true :: ?l) with ([CapRead true] ++ l)%list;
  rewrite !opened_app, opened_process_frame;
  destruct (video_writer self); try destruct (recording self); reflexivity.
Qed.

(** A pairing carries over to an object with the same stored frame and
    results. *)
Lemma paired_same self self' :
last_results self' = last_results self ->
last_frame self' = last_frame self ->
paired self -> paired self'.
Proof.
unfold paired. intros Hr Hf P results H. rewrite Hr in H. rewrite Hf. auto.
Qed.

(** [update_frame] assigns neither the frame rate nor the recording fields,
    and stores the frame and the results of one call of [process_frame]. *)
Lemma update_frame_final read self :
let self' := final (update_frame read self) in
fps self' = fps self /\
recording self' = recording self /\
video_writer self' = video_writer self /\
(paired self -> paired self').
Proof.
cbv zeta. destruct (running self && cap_opened self) eqn:G.
2:{ rewrite (update_frame_idle _ _ G). auto. }
destruct read as [frame|].
2:{ rewrite (update_frame_no_frame _ G). auto. }
apply andb_true_iff in G. destruct G as [Hrun Hcap].
destruct (process_frame_returns frame self) as (processed & results & Hres).
rewrite (update_frame_steps _ _ _ _ Hrun Hcap Hres). cbv zeta.
assert (P : forall self',
          last_results self' = Some results ->
          last_frame self' = Some processed -> paired self').
{ intros self' Hr Hf res H. rewrite Hr in H. injection H as <-.
  exists frame, self, processed. auto. }
destruct (process_frame_fields frame self) as (h & lbl & ->).
destruct (outcome (detect_action PoseLandmark_value results));
  [|destruct (to_imgtk processed); [|destruct (recording self) eqn:R]];
  cbn [final]; (repeat split; [now destruct self ..|]);
  intros _; apply P; reflexivity.
Qed.

Lemma update_frame_keeps read self : keeps self (update_frame read self).
Proof.
destruct (update_frame_final read self) as (Hf & Hr & Hw & Hs).
unfold keeps. rewrite opened_update_frame. repeat split; auto.
- intros w [].
- unfold recording_consistent. now rewrite Hr, Hw.
Qed.

Lemma capture_image_keeps timestamp self :
keeps self (capture_image timestamp self).
Proof.
rewrite capture_image_cases. unfold keeps.
destruct (last_results self) as [[[? ? ? [pl|]]|]|] eqn:E; cbv zeta;
  try destruct (last_frame self) eqn:F; cbn [final emitted opened flat_map app];
  repeat split; try tauto; try (now destruct self);
  apply paired_same; now destruct self.
Qed.

Lemma toggle_recording_keeps timestamp self :
keeps self (toggle_recording timestamp self).
Proof.
unfold keeps. destruct (recording self) eqn:R.
- rewrite (toggle_recording_stop _ _ R). cbn [final emitted].
  repeat split.
  + now destruct (video_writer self).
  + destruct (video_writer self); cbn; tauto.
  + intros _. unfold recording_consistent.
    destruct (video_writer self) eqn:W; cbn; rewrite ?W; reflexivity.
  + apply paired_same; destruct (video_writer self); now destruct self.
- rewrite (toggle_recording_start _ _ R). cbv zeta. cbn [final emitted].
  repeat split.
  + cbn. intros w [<-|[]]. reflexivity.
  + apply paired_same; now destruct self.
Qed.

Lemma cleanup_keeps self : keeps self (cleanup self).
Proof.
rewrite cleanup_steps. unfold keeps. cbn [final emitted]. repeat split.
- destruct (video_writer self); [destruct (recording self)|]; cbn; tauto.
- now destruct self.
- now destruct self.
Qed.

Lemma dispatch_keeps c self : keeps self (dispatch c self).
Proof.
destruct c; cbn [dispatch].
- apply update_frame_keeps.
- apply capture_image_keeps.
- apply toggle_recording_keeps.
- apply cleanup_keeps.
Qed.

(** Whatever callbacks run, the frame rate stays, every writer is opened at
    it, and the two invariants hold throughout. *)
Lemma mainloop_keeps cs : forall self,
fps (fst (mainloop cs self)) = fps self /\
(forall w, In w (opened (snd (mainloop cs self))) -> writer_fps w = fps self) /\
(recording_consistent self = true ->
 recording_consistent (fst (mainloop cs self)) = true) /\
(paired self -> paired (fst (mainloop cs self))).
Proof.
induction cs as [|c rest IH]; intros self; cbn [mainloop].
- cbn. repeat split; auto. intros w [].
- destruct (dispatch_keeps c self) as (Kf & Ko & Kr & Ks).
  specialize (IH (final (dispatch c self))).
  destruct (mainloop rest (final (dispatch c self))) as [self' evs].
  cbn [fst snd] in *. destruct IH as (If & Io & Ir & Is).
  repeat split; auto.
  + congruence.
  + intros w. unfold opened. rewrite flat_map_app.
    intros H. apply in_app_or in H. destruct H as [H|H].
    * now apply Ko.
    * rewrite <- Kf. now apply Io.
Qed.

Lemma init_invariants h cap g :
__init__ h cap = inr g ->
recording_consistent g = true /\ paired g.
Proof.
unfold __init__, sum_bind.
destruct (int_of_float (CAP_PROP_FRAME_WIDTH cap)); [discriminate|].
destruct (int_of_float (CAP_PROP_FRAME_HEIGHT cap)); [discriminate|].
destruct (int_of_float (CAP_PROP_FPS cap)); [discriminate|].
intros [= <-]. split; [reflexivity|]. intros results H. discriminate H.
Qed.

(** What [__init__] leaves in [fps]: the camera's reported frame rate
    truncated to an integer when that is not zero, and 30 when it is; every
    video writer constructed afterwards gets that frame rate. *)
Theorem fps_never_zero h cap g :
__init__ h cap = inr g ->
exists reported,
  int_of_float (CAP_PROP_FPS cap) = inr reported /\
  fps g = (if reported =? 0 then 30 else reported) /\
  fps g <> 0 /\
  (0 < fps g <-> 0 <= reported) /\
  forall cs w, In w (opened (snd (mainloop cs g))) ->
               writer_fps w = fps g /\ writer_fps w <> 0.
Proof.
intros H. destruct (init_fps _ _ _ H) as (reported & Hr & Hf).
exists reported. split; [exact Hr|]. split; [exact Hf|].
assert (Hnz : fps g <> 0) by (rewrite Hf; now apply int_or_nonzero).
split; [exact Hnz|]. split; [rewrite Hf; apply int_or_positive|].
intros cs w Hw. destruct (mainloop_keeps cs g) as (_ & Ho & _).
rewrite (Ho w Hw). auto.
Qed.

End AppFacts.


(** * The model at work *)

Example int_truncates :
map int_of_float [29.97; 0.99; -0.5; -1.5; 0]%float =
[inr 29; inr 0; inr 0; inr (-1); inr 0]%Z.
Proof. reflexivity. Qed.

Example int_of_nan_raises :
int_of_float nan = inl (ValueError "cannot convert float NaN to integer").
Proof. reflexivity. Qed.

Example init_on_webcam :
__init__ (L := Sample.world) 0%nat Sample.webcam = inr Sample.fresh.
Proof. reflexivity. Qed.

Example classify_samples :
map (fun r => outcome (detect_action mp_pose r))
    [None; Some Sample.no_pose; Some Sample.standing; Some Sample.left_up;
     Some Sample.right_up; Some Sample.both_up] =
[inr "None"; inr "None"; inr "Standing"; inr "Raising Left Hand";
 inr "Raising Right Hand"; inr "Raising Right Hand"].
Proof. reflexivity. Qed.

(** The comparison is strict: a wrist exactly 0.2 above the shoulder is not
    raised. *)
Example classify_at_threshold :
outcome (detect_action mp_pose
           (Some (Sample.with_pose (Sample.put_y Sample.rest 16 (0.5 - 0.2)%float)))) =
inr "Standing".
Proof. reflexivity. Qed.

(** A pose with too few landmarks makes the classifier raise. *)
Example classify_short_pose :
detect_action mp_pose (Some (Sample.with_pose (firstn 14 Sample.rest))) =
([mkAccess 12 CoordY], inl (IndexError "list index out of range")).
Proof. reflexivity. Qed.

Example process_sample_frame :
process_frame (L := Sample.world) [9; 7; 2]%nat Sample.fresh =
mkRun (L := Sample.world) (inr ([9; 7; 2; 33]%nat, Some Sample.right_up))
      (set_holistic (L := Sample.world) 1%nat Sample.fresh) [].
Proof. reflexivity. Qed.

Example turn_while_filming :
emitted (update_frame (L := Sample.world) (Some [9; 7; 2]%nat) Sample.filming) =
[CapRead (L := Sample.world) true;
 WriterWrite (L := Sample.world) Sample.clip [9; 7; 2; 33]%nat;
 ConfigureAction "Action: Raising Right Hand";
 ConfigureVideo (L := Sample.world) [33; 2; 7; 9]%nat; After 10].
Proof. reflexivity. Qed.

Example capture_after_failed_turn :
result (capture_image (L := Sample.world) "20250316_120000"
          (fst (mainloop [Tick (L := Sample.world) (Some [9; 7; 5]%nat)]
                         Sample.fresh))) =
inl (AttributeError "'NoneType' object has no attribute 'pose_landmarks'").
Proof. reflexivity. Qed.

(** * Counterexamples and instances *)



Lemma update_frame_is_the_loop_witness :
result (update_frame (L := Sample.world) (Some [9; 7; 2]%nat) Sample.filming) =
  inr tt /\
emitted (update_frame (L := Sample.world) (Some [9; 7; 2]%nat) Sample.filming) =
  [CapRead (L := Sample.world) true;
   WriterWrite (L := Sample.world) Sample.clip [9; 7; 2; 33]%nat;
   ConfigureAction "Action: Raising Right Hand";
   ConfigureVideo (L := Sample.world) [33; 2; 7; 9]%nat; After 10].
Proof.
destruct (proj1 (update_frame_is_the_loop (L := Sample.world)
                   [9; 7; 2]%nat Sample.filming [9; 7; 2; 33]%nat
                   (Some Sample.right_up) eq_refl eq_refl eq_refl))
  as (_ & _ & _ & Hres & Hev & _).
split; [exact Hres|exact Hev].
Defined.

Lemma capture_image_needs_pose_witness :
exists results,
  last_results Sample.snapped = Some (Some results) /\
  pose_landmarks results <> None.
Proof.
assert (P : paired Sample.snapped).
{ apply (mainloop_keeps (L := Sample.world)).
  exact (proj2 (init_invariants (L := Sample.world) 0%nat Sample.webcam
                  Sample.fresh eq_refl)). }
apply (proj1 (capture_image_needs_pose (L := Sample.world)
                "20250316_120000" Sample.snapped P)).
cbv. discriminate.
Defined.

(** C7 as stated fails: a turn that reads a frame may stop before the
    picture is shown and the next turn is scheduled.  Here Tk cannot make
    the image: the frame is read, processed, recorded and classified, and
    the turn raises. *)
Lemma turn_without_picture :
result (update_frame (L := Studio.no_display) (Some [9; 7; 2]%nat)
                     Studio.filming) =
  inl (LibraryError "no display") /\
emitted (update_frame (L := Studio.no_display) (Some [9; 7; 2]%nat)
                      Studio.filming) =
  [CapRead (L := Studio.no_display) true;
   WriterWrite (L := Studio.no_display) Sample.clip [9; 7; 2; 33]%nat;
   ConfigureAction "Action: Raising Right Hand"].
Proof. split; reflexivity. Qed.

(** C10: the code breaks the claim when the camera answers -1 for a frame
    rate it cannot tell: [int(-1.0) or 30] is -1, not the 30 the comment on
    that line promises, so [fps] is negative and the video writer is
    constructed with a frame rate that is not positive. *)
Lemma negative_frame_rate :
__init__ (L := Sample.world) 0%nat Sample.odd_webcam = inr Sample.odd /\
map writer_fps
    (opened (emitted (toggle_recording (L := Sample.world)
                                       "20250316_120000" Sample.odd))) =
  [(-1)%Z] /\
forallb (fun w => (0 <? writer_fps w)%Z)
        (opened (emitted (toggle_recording (L := Sample.world)
                                           "20250316_120000" Sample.odd))) =
  false.
Proof. repeat split. Qed.


(** * Further properties of the classifier *)

Section MoreClassifierFacts.

Variable pose : PoseLandmark.

(** ** Floats that are not numbers *)

Lemma SFcompare_refl f : f <> S754_nan -> SFcompare f f = Some Eq.
Proof.
destruct f as [s|s| |s m e]; intros H; cbn.
- reflexivity.
- now destruct s.
- now elim H.
- rewrite Z.compare_refl, Pos.compare_cont_refl. now destruct s.
Qed.

Lemma is_nan_Prim2SF f : is_nan f = true <-> Prim2SF f = S754_nan.
Proof.
unfold is_nan. rewrite FloatAxioms.eqb_spec. unfold SFeqb. split.
- intros H. destruct (Prim2SF f) eqn:E; try reflexivity;
    rewrite SFcompare_refl in H by discriminate; discriminate H.
- intros ->. reflexivity.
Qed.

Lemma ltb_nan_left a b : is_nan a = true -> (a <? b)%float = false.
Proof.
intros H. apply is_nan_Prim2SF in H.
rewrite ltb_spec. unfold SFltb. now rewrite H.
Qed.

Lemma ltb_nan_right a b : is_nan b = true -> (a <? b)%float = false.
Proof.
intros H. apply is_nan_Prim2SF in H.
rewrite ltb_spec. unfold SFltb. rewrite H.
now destruct (Prim2SF a).
Qed.

Lemma sub_nan a b : is_nan a = true -> is_nan (a - b)%float = true.
Proof.
intros H. apply is_nan_Prim2SF in H. apply is_nan_Prim2SF.
rewrite sub_spec, H. reflexivity.
Qed.

(** A side whose wrist or shoulder has a NaN height passes no threshold. *)
Lemma threshold_nan wrist shoulder :
is_nan wrist || is_nan shoulder = true ->
(wrist <? shoulder - 0.2)%float = false.
Proof.
intros H. apply orb_true_iff in H. destruct H as [H|H].
- now apply ltb_nan_left.
- apply ltb_nan_right. now apply sub_nan.
Qed.

(** X1: [detect_action] returns a label exactly on the inputs that carry no
    pose or a pose with the four indexed landmarks; on a pose that lacks one
    of them it raises [IndexError]. *)
Theorem detect_action_returns_or_raises results :
if well_formed pose results
then exists l, outcome (detect_action pose results) = inr l
else outcome (detect_action pose results) =
     inl (IndexError "list index out of range").
Proof.
destruct (well_formed pose results) eqn:W.
{ now apply detect_action_returns. }
destruct results as [r|]; [|discriminate W]. unfold well_formed in W.
unfold detect_action.
destruct (pose_landmarks r) as [pl|]; [|discriminate W]. cbv zeta.
unfold coordinate.
destruct (nth_error (landmark pl) (RIGHT_SHOULDER pose)) eqn:E1; [|reflexivity].
destruct (nth_error (landmark pl) (RIGHT_WRIST pose)) eqn:E2; [|reflexivity].
destruct (nth_error (landmark pl) (LEFT_SHOULDER pose)) eqn:E3; [|reflexivity].
destruct (nth_error (landmark pl) (LEFT_WRIST pose)) eqn:E4; [|reflexivity].
exfalso. unfold has_pose_points in W. cbn [forallb] in W.
assert (lt : forall i lm, nth_error (landmark pl) i = Some lm ->
                          Nat.ltb i (List.length (landmark pl)) = true).
{ intros i lm H. apply Nat.ltb_lt. apply nth_error_Some. congruence. }
rewrite (lt _ _ E1), (lt _ _ E2), (lt _ _ E3), (lt _ _ E4) in W.
discriminate W.
Qed.

(** X2: a hand whose wrist or shoulder has a NaN height is never reported
    raised; when that is so on both sides the answer is "Standing". *)
Theorem detect_action_nan_not_raised r pl rs rw ls lw :
pose_landmarks r = Some pl ->
nth_error (landmark pl) (RIGHT_SHOULDER pose) = Some rs ->
nth_error (landmark pl) (RIGHT_WRIST pose) = Some rw ->
nth_error (landmark pl) (LEFT_SHOULDER pose) = Some ls ->
nth_error (landmark pl) (LEFT_WRIST pose) = Some lw ->
(is_nan (y rw) || is_nan (y rs) = true ->
 outcome (detect_action pose (Some r)) <> inr "Raising Right Hand") /\
(is_nan (y lw) || is_nan (y ls) = true ->
 outcome (detect_action pose (Some r)) <> inr "Raising Left Hand") /\
(is_nan (y rw) || is_nan (y rs) = true ->
 is_nan (y lw) || is_nan (y ls) = true ->
 outcome (detect_action pose (Some r)) = inr "Standing").
Proof.
intros Hp H1 H2 H3 H4.
rewrite (detect_action_found _ _ _ _ _ _ _ Hp H1 H2 H3 H4). cbn [outcome snd].
split; [|split].
- intros N. rewrite (threshold_nan _ _ N).
  destruct (_ <? _)%float; discriminate.
- intros N. rewrite (threshold_nan _ _ N).
  destruct (_ <? _)%float; discriminate.
- intros NR NL. now rewrite (threshold_nan _ _ NR), (threshold_nan _ _ NL).
Qed.

End MoreClassifierFacts.

(** * Further properties of the application *)

Section MoreAppFacts.

Context {L : Libraries}.

#[local] Open Scope Z_scope.

Ltac step_method :=
  cbv [seq try_except getattr assign emit lift pure throw logger
       configure_status configure_action configure_record_button
       configure_video];
  cbn [result final emitted].

Lemma filter_all_false {A} (f : A -> bool) l :
(forall a, In a l -> f a = false) -> filter f l = [].
Proof.
induction l as [|a l IH]; intros H; [reflexivity|]. cbn.
rewrite (H a) by now left. apply IH. intros b Hb. apply H. now right.
Qed.

Lemma existsb_all_false {A} (f : A -> bool) l :
(forall a, In a l -> f a = false) -> existsb f l = false.
Proof.
induction l as [|a l IH]; intros H; [reflexivity|]. cbn.
rewrite (H a) by now left. apply IH. intros b Hb. apply H. now right.
Qed.

(** ** What [process_frame] touches *)

Lemma process_frame_event frame self ev :
In ev (emitted (process_frame frame self)) ->
(exists m, ev = Log ERROR m) \/ (exists t, ev = ConfigureStatus t "red").
Proof.
destruct (process_frame_emitted frame self) as [->|[e ->]].
- intros [].
- intros [<-|[<-|[]]]; eauto.
Qed.

(** X3: [process_frame] assigns nothing of the object but the detector and
    the status label; when it returns detection results it has done nothing
    outside and has left the status label alone; otherwise all it does
    outside is log the error and show it in red. *)
Theorem process_frame_footprint frame self :
let r := process_frame frame self in
(exists h lbl, final r = set_status_label lbl (set_holistic h self)) /\
(forall image results,
   result r = inr (image, Some results) ->
   emitted r = [] /\ status_label (final r) = status_label self) /\
(forall ev, In ev (emitted r) ->
   (exists m, ev = Log ERROR m) \/ (exists t, ev = ConfigureStatus t "red")).
Proof.
cbv zeta. split; [apply process_frame_fields|]. split.
- intros image results. rewrite process_frame_cases.
  destruct (annotate_effects frame self) as [He [h Hh]].
  destruct (result (annotate frame self)) as [e|v] eqn:E.
  + cbn [result]. discriminate.
  + intros _. split; [exact He|]. rewrite Hh. now destruct self.
- apply process_frame_event.
Qed.

(** ** Turns of the loop *)

(** What a turn stores, whether or not it goes on to raise. *)
Lemma update_frame_stores frame self processed results :
running self = true ->
cap_opened self = true ->
result (process_frame frame self) = inr (processed, results) ->
last_frame (final (update_frame (Some frame) self)) = Some processed /\
last_results (final (update_frame (Some frame) self)) = Some results.
Proof.
intros Hrun Hcap Hres.
rewrite (update_frame_steps _ _ _ _ Hrun Hcap Hres). cbv zeta.
destruct (outcome (detect_action PoseLandmark_value results));
  [|destruct (to_imgtk processed); [|destruct (recording self)]];
  split; reflexivity.
Qed.

(** Everything a turn does outside is a [turn_event]. *)
Lemma update_frame_alphabet read self ev :
In ev (emitted (update_frame read self)) -> turn_event self ev.
Proof.
destruct (running self && cap_opened self) eqn:G.
2:{ rewrite (update_frame_idle _ _ G). intros []. }
destruct read as [frame|].
2:{ rewrite (update_frame_no_frame _ G). intros [<-|[<-|[]]]; exact I. }
apply andb_true_iff in G. destruct G as [Hrun Hcap].
destruct (process_frame_returns frame self) as (processed & results & Hres).
rewrite (update_frame_steps _ _ _ _ Hrun Hcap Hres). cbv zeta.
assert (sofar : forall ev,
          In ev (CapRead true :: emitted (process_frame frame self) ++
                 match video_writer self with
                 | Some w => if recording self then [WriterWrite w processed]
                             else []
                 | None => []
                 end) -> turn_event self ev).
{ intros ev' [<-|H]; [exact I|]. apply in_app_or in H. destruct H as [H|H].
  - destruct (process_frame_event _ _ _ H) as [[m ->]|[t ->]]; exact I.
  - destruct (video_writer self) as [w|] eqn:W; [|destruct H].
    destruct (recording self) eqn:R; [|destruct H].
    destruct H as [<-|[]]. cbn. auto. }
destruct (outcome (detect_action PoseLandmark_value results));
  [|destruct (to_imgtk processed); [|destruct (recording self) eqn:R]];
  cbn [emitted]; intros H; try (now apply sofar);
  apply in_app_or in H; destruct H as [H|H]; try (now apply sofar);
  cbn in H; intuition (subst; exact I).
Qed.

Lemma scheduled_app evs evs' :
scheduled (evs ++ evs') = scheduled evs || scheduled evs'.
Proof. apply existsb_app. Qed.

Lemma scheduled_process_frame frame self :
scheduled (emitted (process_frame frame self)) = false.
Proof.
apply existsb_all_false. intros ev H.
destruct (process_frame_event _ _ _ H) as [[m ->]|[t ->]]; reflexivity.
Qed.

(** When a turn schedules the next one. *)
Lemma scheduled_update_frame read self :
scheduled (emitted (update_frame read self)) =
running self && cap_opened self &&
match result (update_frame read self) with inr _ => true | inl _ => false end.
Proof.
destruct (running self && cap_opened self) eqn:G.
2:{ now rewrite (update_frame_idle _ _ G). }
destruct read as [frame|].
2:{ now rewrite (update_frame_no_frame _ G). }
apply andb_true_iff in G. destruct G as [Hrun Hcap].
destruct (process_frame_returns frame self) as (processed & results & Hres).
rewrite (update_frame_steps _ _ _ _ Hrun Hcap Hres). cbv zeta.
destruct (outcome (detect_action PoseLandmark_value results));
  [|destruct (to_imgtk processed); [|destruct (recording self) eqn:R]];
  cbn [result emitted andb];
  change (CapRead true :: ?l) with ([CapRead true] ++ l)%list;
  rewrite !scheduled_app, scheduled_process_frame;
  destruct (video_writer self); try destruct (recording self); reflexivity.
Qed.

(** X4: [update_frame] schedules its next turn exactly when the object is
    running, the camera is open and the turn did not raise; a frame the
    camera fails to give does not stop the loop and changes nothing of the
    object; when stopped or with the camera closed the turn does nothing at
    all. *)
Theorem update_frame_reschedules read self :
let r := update_frame read self in
scheduled (emitted r) =
  running self && cap_opened self &&
  match result r with inr _ => true | inl _ => false end /\
(read = None -> result r = inr tt /\ final r = self) /\
(running self && cap_opened self = false -> r = mkRun (inr tt) self []).
Proof.
cbv zeta. split; [apply scheduled_update_frame|]. split.
- intros ->. destruct (running self && cap_opened self) eqn:G.
  + rewrite (update_frame_no_frame _ G). split; reflexivity.
  + rewrite (update_frame_idle _ _ G). split; reflexivity.
- apply update_frame_idle.
Qed.

(** X5: when a turn on a frame raises, it is in the classifier or in the
    conversion of the frame for the GUI; the turn is then not rescheduled and
    the picture shown stays, yet the frame and the results are already
    stored and, when recording, the frame is already written. *)
Theorem update_frame_aborts_midway frame self e :
running self = true ->
cap_opened self = true ->
result (update_frame (Some frame) self) = inl e ->
let r := update_frame (Some frame) self in
exists processed results,
  result (process_frame frame self) = inr (processed, results) /\
  (outcome (detect_action PoseLandmark_value results) = inl e \/
   to_imgtk processed = inl e) /\
  scheduled (emitted r) = false /\
  video_label (final r) = video_label self /\
  last_frame (final r) = Some processed /\
  last_results (final r) = Some results /\
  written (emitted r) =
    match video_writer self with
    | Some w => if recording self then [(w, processed)] else []
    | None => []
    end.
Proof.
intros Hrun Hcap. cbv zeta.
destruct (process_frame_returns frame self) as (processed & results & Hres).
destruct (process_frame_fields frame self) as (h & lbl & Hfin).
rewrite (update_frame_steps _ _ _ _ Hrun Hcap Hres). cbv zeta.
intros Hraise. exists processed, results. split; [exact Hres|].
rewrite Hfin in *.
destruct (outcome (detect_action PoseLandmark_value results)) as [e1|action];
  [|destruct (to_imgtk processed) as [e2|imgtk];
    [|destruct (recording self); discriminate Hraise]];
  cbn [result] in Hraise; injection Hraise as ->;
  (split; [auto|]); cbn [final emitted];
  change (CapRead true :: ?l) with ([CapRead true] ++ l)%list;
  rewrite !scheduled_app, !written_app, scheduled_process_frame,
    written_process_frame;
  (split; [destruct (video_writer self); try destruct (recording self);
           reflexivity|]);
  (split; [now destruct self|]);
  (split; [reflexivity|]); (split; [reflexivity|]);
  destruct (video_writer self); try destruct (recording self); reflexivity.
Qed.

(** ** Snapshots after a turn *)

(** X6: after a turn in which processing the frame raised, [capture_image]
    raises [AttributeError]: it writes no file, logs nothing and leaves the
    status label as it is. *)
Theorem capture_after_failed_processing timestamp frame self e :
running self = true ->
cap_opened self = true ->
result (annotate frame self) = inl e ->
let self' := final (update_frame (Some frame) self) in
capture_image timestamp self' =
mkRun (inl (AttributeError
              "'NoneType' object has no attribute 'pose_landmarks'"))
      self' [].
Proof.
intros Hrun Hcap Hraise. cbv zeta.
assert (Hres : result (process_frame frame self) = inr (frame, None)).
{ rewrite process_frame_cases, Hraise. reflexivity. }
destruct (update_frame_stores _ _ _ _ Hrun Hcap Hres) as [_ Hr].
rewrite capture_image_cases, Hr. reflexivity.
Qed.

(** X7: after a turn that found a pose, [capture_image] saves one file,
    named after the timestamp, and it holds the processed frame of that
    turn, also when the turn went on to raise. *)
Theorem snapshot_is_latest_processed_frame timestamp frame self processed results :
running self = true ->
cap_opened self = true ->
result (process_frame frame self) = inr (processed, Some results) ->
pose_landmarks results <> None ->
let r := capture_image timestamp (final (update_frame (Some frame) self)) in
result r = inr tt /\
saved (emitted r) = [(("capture_" ++ timestamp ++ ".jpg")%string, processed)].
Proof.
intros Hrun Hcap Hres Hpose. cbv zeta.
destruct (update_frame_stores _ _ _ _ Hrun Hcap Hres) as [Hf Hr].
rewrite capture_image_cases, Hr, Hf.
destruct results as [f rh lh [pl|]]; [|now elim Hpose].
split; reflexivity.
Qed.

(** ** Closing *)

(** X8: [cleanup] releases the camera once, releases the writer exactly
    when recording with a writer, and leaves [recording] and [video_writer]
    as they were; after it a turn of [update_frame] does nothing and
    schedules nothing. *)
Theorem cleanup_stops_loop self read :
let self' := final (cleanup self) in
result (cleanup self) = inr tt /\
filter camera_release (emitted (cleanup self)) = [CapRelease] /\
filter writer_event (emitted (cleanup self)) =
  match video_writer self with
  | Some w => if recording self then [WriterRelease w] else []
  | None => []
  end /\
recording self' = recording self /\
video_writer self' = video_writer self /\
update_frame read self' = mkRun (inr tt) self' [].
Proof.
cbv zeta. rewrite cleanup_steps. cbn [result final emitted].
split; [reflexivity|]. split; [|split; [|split; [|split]]].
- destruct (video_writer self); [destruct (recording self)|]; reflexivity.
- destruct (video_writer self); [destruct (recording self)|]; reflexivity.
- now destruct self.
- now destruct self.
- apply update_frame_idle. now destruct self.
Qed.

(** ** Any run of the callbacks *)

(** An invariant of the object and a property of the effects carry over
    from single callbacks to runs. *)
Lemma mainloop_induction (Inv : GUI -> Prop) (Good : event -> Prop) cs0 :
(forall c self, In c cs0 -> Inv self ->
   Inv (final (dispatch c self)) /\
   forall ev, In ev (emitted (dispatch c self)) -> Good ev) ->
forall cs, incl cs cs0 -> forall self, Inv self ->
  Inv (fst (mainloop cs self)) /\
  forall ev, In ev (snd (mainloop cs self)) -> Good ev.
Proof.
intros Step. induction cs as [|c rest IH]; intros Sub self HI; cbn [mainloop].
- split; [exact HI|]. intros ev [].
- destruct (Step c self (Sub c (or_introl eq_refl)) HI) as [HI' Hev].
  assert (Sub' : incl rest cs0) by (intros a Ha; apply Sub; now right).
  specialize (IH Sub' _ HI').
  destruct (mainloop rest (final (dispatch c self))) as [self' evs].
  cbn [fst snd] in *. destruct IH as [IH1 IH2]. split; [exact IH1|].
  intros ev H. apply in_app_or in H. destruct H; auto.
Qed.

Lemma in_opened w evs : In w (opened evs) <-> In (WriterOpen w) evs.
Proof.
unfold opened. rewrite in_flat_map. split.
- intros (ev & Hev & Hw). destruct ev; cbn in Hw; try contradiction.
  destruct Hw as [->|[]]. exact Hev.
- intros H. exists (WriterOpen w). split; [exact H|now left].
Qed.

Lemma in_saved file img evs :
In (file, img) (saved evs) <-> In (ImWrite file img) evs.
Proof.
unfold saved. rewrite in_flat_map. split.
- intros (ev & Hev & Hw). destruct ev; cbn in Hw; try contradiction.
  destruct Hw as [[= -> ->]|[]]. exact Hev.
- intros H. exists (ImWrite file img). split; [exact H|now left].
Qed.

(** What [toggle_recording] does outside. *)
Lemma toggle_recording_event timestamp self ev :
In ev (emitted (toggle_recording timestamp self)) ->
match ev with
| WriterOpen w =>
    recording self = false /\
    w = mkWriter ("recording_" ++ timestamp ++ ".mp4")%string "mp4v" (fps self)
                 (frame_width self, frame_height self)
| WriterRelease w => recording self = true /\ video_writer self = Some w
| ConfigureRecordButton _ | ConfigureStatus _ _ | Log INFO _ => True
| _ => False
end.
Proof.
destruct (recording self) eqn:R.
- rewrite (toggle_recording_stop _ _ R). cbn [emitted].
  destruct (video_writer self); cbn; intuition (subst; auto).
- rewrite (toggle_recording_start _ _ R). cbv zeta. cbn.
  intuition (subst; auto).
Qed.

(** What [capture_image] does outside. *)
Lemma capture_image_event timestamp self ev :
In ev (emitted (capture_image timestamp self)) ->
match ev with
| ImWrite file img =>
    file = ("capture_" ++ timestamp ++ ".jpg")%string /\
    last_frame self = Some img /\
    exists results, last_results self = Some (Some results) /\
                    pose_landmarks results <> None
| Log _ _ | ConfigureStatus _ _ => True
| _ => False
end.
Proof.
rewrite capture_image_cases.
destruct (last_results self) as [[[f rh lh [pl|]]|]|]; cbv zeta;
  try destruct (last_frame self); cbn; intuition (subst; auto).
repeat split. eexists. split; [reflexivity|]. cbn. discriminate.
Qed.

(** What [cleanup] does outside. *)
Lemma cleanup_event self ev :
In ev (emitted (cleanup self)) ->
match ev with
| WriterRelease w => recording self = true /\ video_writer self = Some w
| Log INFO _ | CapRelease | HolisticClose | RootDestroy => True
| _ => False
end.
Proof.
rewrite cleanup_steps. cbn [emitted].
destruct (video_writer self); [destruct (recording self)|]; cbn;
  intuition (subst; auto).
Qed.

(** The fields no turn assigns. *)
Lemma update_frame_settings read self :
let self' := final (update_frame read self) in
frame_width self' = frame_width self /\
frame_height self' = frame_height self /\
running self' = running self /\
cap_opened self' = cap_opened self.
Proof.
cbv zeta. destruct (running self && cap_opened self) eqn:G.
2:{ rewrite (update_frame_idle _ _ G). auto. }
destruct read as [frame|].
2:{ rewrite (update_frame_no_frame _ G). auto. }
apply andb_true_iff in G. destruct G as [Hrun Hcap].
destruct (process_frame_returns frame self) as (processed & results & Hres).
rewrite (update_frame_steps _ _ _ _ Hrun Hcap Hres). cbv zeta.
destruct (process_frame_fields frame self) as (h & lbl & ->).
destruct (outcome (detect_action PoseLandmark_value results));
  [|destruct (to_imgtk processed); [|destruct (recording self) eqn:R]];
  cbn [final]; now destruct self.
Qed.

(** X9: when the camera could not be opened, no run of the callbacks ever
    reads a frame, records one, saves an image or shows an action or a
    picture. *)
Theorem closed_camera_blank h cap g cs :
__init__ h cap = inr g ->
isOpened cap = false ->
filter feed_event (snd (mainloop cs g)) = [].
Proof.
intros Hinit Hclosed.
assert (Hg : cap_opened g = false /\ last_results g = None).
{ revert Hinit. unfold __init__, sum_bind.
  destruct (int_of_float (CAP_PROP_FRAME_WIDTH cap)); [discriminate|].
  destruct (int_of_float (CAP_PROP_FRAME_HEIGHT cap)); [discriminate|].
  destruct (int_of_float (CAP_PROP_FPS cap)); [discriminate|].
  intros [= <-]. cbn. auto. }
apply filter_all_false.
apply (mainloop_induction
         (fun self => cap_opened self = false /\ last_results self = None)
         (fun ev => feed_event ev = false) cs); [|apply incl_refl|exact Hg].
intros c self _ [Hc Hr]. destruct c as [read|timestamp|timestamp|]; cbn [dispatch].
- rewrite update_frame_idle by (rewrite Hc; apply andb_false_r).
  split; [auto|]. intros ev [].
- split.
  + rewrite capture_image_cases, Hr. cbn. auto.
  + intros ev H. apply capture_image_event in H.
    destruct ev; try reflexivity; try destruct H.
    destruct H0 as (_ & results & H0 & _). congruence.
- split.
  + destruct (recording self) eqn:R.
    * rewrite (toggle_recording_stop _ _ R). cbn [final].
      destruct (video_writer self); now destruct self.
    * rewrite (toggle_recording_start _ _ R). now destruct self.
  + intros ev H. apply toggle_recording_event in H.
    destruct ev; try reflexivity; destruct H.
- split.
  + rewrite cleanup_steps. now destruct self.
  + intros ev H. apply cleanup_event in H.
    destruct ev; try reflexivity; destruct H.
Qed.

Lemma init_geometry h cap g :
__init__ h cap = inr g ->
int_of_float (CAP_PROP_FRAME_WIDTH cap) = inr (frame_width g) /\
int_of_float (CAP_PROP_FRAME_HEIGHT cap) = inr (frame_height g).
Proof.
unfold __init__, sum_bind.
destruct (int_of_float (CAP_PROP_FRAME_WIDTH cap)); [discriminate|].
destruct (int_of_float (CAP_PROP_FRAME_HEIGHT cap)); [discriminate|].
destruct (int_of_float (CAP_PROP_FPS cap)); [discriminate|].
intros [= <-]. split; reflexivity.
Qed.

(** X10: every video writer constructed in a run is given the codec "mp4v",
    the frame size the camera reported at start (truncated to integers, not
    the 640 by 480 of the display), and a file named after the timestamp of
    a press of the record button. *)
Theorem writers_use_camera_geometry h cap g cs w :
__init__ h cap = inr g ->
In w (opened (snd (mainloop cs g))) ->
fourcc w = "mp4v"%string /\
int_of_float (CAP_PROP_FRAME_WIDTH cap) = inr (fst (frame_size w)) /\
int_of_float (CAP_PROP_FRAME_HEIGHT cap) = inr (snd (frame_size w)) /\
exists timestamp,
  In (PressRecord timestamp) cs /\
  filename w = ("recording_" ++ timestamp ++ ".mp4")%string.
Proof.
intros Hinit Hw. destruct (init_geometry _ _ _ Hinit) as [Wd Ht].
apply in_opened in Hw.
assert (G : forall ev, In ev (snd (mainloop cs g)) ->
              match ev with
              | WriterOpen w =>
                  fourcc w = "mp4v"%string /\
                  frame_size w = (frame_width g, frame_height g) /\
                  exists timestamp,
                    In (PressRecord timestamp) cs /\
                    filename w = ("recording_" ++ timestamp ++ ".mp4")%string
              | _ => True
              end).
{ apply (mainloop_induction
           (fun self => frame_width self = frame_width g /\
                        frame_height self = frame_height g)
           _ cs); [|apply incl_refl|auto].
  intros c self Hc [Hwd Hht].
  destruct c as [read|timestamp|timestamp|]; cbn [dispatch].
  - destruct (update_frame_settings read self) as (-> & -> & _).
    split; [auto|]. intros ev H. apply update_frame_alphabet in H.
    destruct ev; try exact I. destruct H.
  - split.
    + rewrite capture_image_cases.
      destruct (last_results self) as [[[f rh lh [pl|]]|]|]; cbv zeta;
        try destruct (last_frame self); now destruct self.
    + intros ev H. apply capture_image_event in H.
      destruct ev; try exact I. destruct H.
  - split.
    + destruct (recording self) eqn:R.
      * rewrite (toggle_recording_stop _ _ R). cbn [final].
        destruct (video_writer self); now destruct self.
      * rewrite (toggle_recording_start _ _ R). now destruct self.
    + intros ev H. apply toggle_recording_event in H.
      destruct ev; try exact I. destruct H as [_ ->]. cbn.
      rewrite Hwd, Hht. repeat split. now exists timestamp.
  - split.
    + rewrite cleanup_steps. now destruct self.
    + intros ev H. apply cleanup_event in H.
      destruct ev; try exact I. destruct H. }
destruct (G _ Hw) as (Hc & Hs & Hn). rewrite Hs. cbn [fst snd]. auto.
Qed.

(** X11: in every run of the callbacks after [__init__], in any order,
    [recording] is set exactly when [video_writer] is not [None]. *)
Theorem recording_consistent_in_every_run h cap g cs :
__init__ h cap = inr g ->
(recording (fst (mainloop cs g)) = true <->
 video_writer (fst (mainloop cs g)) <> None).
Proof.
intros Hinit. destruct (init_invariants _ _ _ Hinit) as [Hc _].
destruct (mainloop_keeps cs g) as (_ & _ & Hk & _). specialize (Hk Hc).
unfold recording_consistent in Hk.
destruct (recording (fst (mainloop cs g))),
         (video_writer (fst (mainloop cs g))); cbn in Hk;
  try discriminate Hk; split; try discriminate; auto.
Qed.

(** X12: in every run of the callbacks after [__init__], each image file
    written holds a frame that [process_frame] returned together with
    results that carry pose landmarks. *)
Theorem snapshots_show_a_pose h cap g cs file img :
__init__ h cap = inr g ->
In (file, img) (saved (snd (mainloop cs g))) ->
exists frame before results,
  result (process_frame frame before) = inr (img, Some results) /\
  pose_landmarks results <> None.
Proof.
intros Hinit Hin. destruct (init_invariants _ _ _ Hinit) as [_ Hp].
apply in_saved in Hin.
assert (G : forall ev, In ev (snd (mainloop cs g)) ->
              match ev with
              | ImWrite _ img =>
                  exists frame before results,
                    result (process_frame frame before) =
                      inr (img, Some results) /\
                    pose_landmarks results <> None
              | _ => True
              end).
{ apply (mainloop_induction paired _ cs); [|apply incl_refl|exact Hp].
  intros c self _ P. split; [now apply dispatch_keeps|].
  destruct c as [read|timestamp|timestamp|]; cbn [dispatch]; intros ev H.
  - apply update_frame_alphabet in H. destruct ev; try exact I. destruct H.
  - apply capture_image_event in H. destruct ev; try exact I.
    destruct H as (_ & Hf & results & Hr & Hpose).
    destruct (P _ Hr) as (frame & before & processed & Hres & Hf').
    rewrite Hf in Hf'. injection Hf' as ->.
    now exists frame, before, results.
  - apply toggle_recording_event in H. destruct ev; try exact I. destruct H.
  - apply cleanup_event in H. destruct ev; try exact I. destruct H. }
exact (G _ Hin).
Qed.

(** ** Starting *)

Lemma int_of_float_finite f :
match int_of_float f with inr _ => true | inl _ => false end = is_finite f.
Proof.
unfold is_finite, is_nan, is_infinity, int_of_float.
rewrite !FloatAxioms.eqb_spec, abs_spec.
change (Prim2SF infinity) with (S754_infinity false).
unfold SFeqb. destruct (Prim2SF f) as [s|s| |s m e] eqn:E.
- reflexivity.
- now destruct s.
- reflexivity.
- rewrite SFcompare_refl by discriminate. reflexivity.
Qed.

(** X13: [__init__] goes through exactly when the width, the height and the
    frame rate the camera reports are all finite; otherwise the first of
    them that is not makes [int] raise, [ValueError] on a NaN and
    [OverflowError] on an infinity. *)
Theorem init_needs_finite_properties h cap :
match __init__ h cap with inr _ => true | inl _ => false end =
  is_finite (CAP_PROP_FRAME_WIDTH cap) &&
  is_finite (CAP_PROP_FRAME_HEIGHT cap) &&
  is_finite (CAP_PROP_FPS cap) /\
(forall e, __init__ h cap = inl e ->
   exists f, In f [CAP_PROP_FRAME_WIDTH cap; CAP_PROP_FRAME_HEIGHT cap;
                   CAP_PROP_FPS cap] /\
     (is_nan f = true /\
      e = ValueError "cannot convert float NaN to integer" \/
      is_infinity f = true /\
      e = OverflowError "cannot convert float infinity to integer")).
Proof.
assert (why : forall f e, int_of_float f = inl e ->
          is_nan f = true /\
          e = ValueError "cannot convert float NaN to integer" \/
          is_infinity f = true /\
          e = OverflowError "cannot convert float infinity to integer").
{ intros f e. unfold int_of_float, is_infinity.
  rewrite FloatAxioms.eqb_spec, abs_spec.
  destruct (Prim2SF f) as [s|s| |s m e'] eqn:E; try discriminate.
  - intros [= <-]. right. split; [now destruct s|reflexivity].
  - intros [= <-]. left. split; [|reflexivity]. now apply is_nan_Prim2SF. }
rewrite <- !int_of_float_finite. unfold __init__, sum_bind. split.
- destruct (int_of_float (CAP_PROP_FRAME_WIDTH cap)); [reflexivity|].
  destruct (int_of_float (CAP_PROP_FRAME_HEIGHT cap)); [reflexivity|].
  destruct (int_of_float (CAP_PROP_FPS cap)); reflexivity.
- intros e.
  destruct (int_of_float (CAP_PROP_FRAME_WIDTH cap)) eqn:E1.
  { intros [= ->]. exists (CAP_PROP_FRAME_WIDTH cap). split; [now left|].
    now apply why. }
  destruct (int_of_float (CAP_PROP_FRAME_HEIGHT cap)) eqn:E2.
  { intros [= ->]. exists (CAP_PROP_FRAME_HEIGHT cap).
    split; [right; now left|]. now apply why. }
  destruct (int_of_float (CAP_PROP_FPS cap)) eqn:E3; [|discriminate].
  intros [= ->]. exists (CAP_PROP_FPS cap).
  split; [right; right; now left|]. now apply why.
Qed.

(** ** Sessions *)

Lemma writer_eqb_refl w : writer_eqb w w = true.
Proof.
unfold writer_eqb. now rewrite !String.eqb_refl, !Z.eqb_refl.
Qed.

Lemma writer_protocol_app cur evs evs' :
writer_protocol cur (evs ++ evs') =
match writer_protocol cur evs with
| Some cur' => writer_protocol cur' evs'
| None => None
end.
Proof.
revert cur. induction evs as [|ev evs IH]; intros cur; [reflexivity|].
destruct ev; cbn [app writer_protocol]; try apply IH;
  destruct cur as [c|]; try reflexivity; try apply IH;
  destruct (writer_eqb c w); try reflexivity; apply IH.
Qed.

(** A turn keeps the discipline and the writer. *)
Lemma writer_protocol_turn self evs :
(forall ev, In ev evs -> turn_event self ev) ->
writer_protocol (video_writer self) evs = Some (video_writer self).
Proof.
induction evs as [|ev evs IH]; intros H; [reflexivity|].
assert (Hev := H ev (or_introl eq_refl)).
assert (IH' := IH (fun ev' Hin => H ev' (or_intror Hin))).
destruct ev; cbn [writer_protocol]; try exact IH'; try (now destruct Hev).
destruct Hev as [Hw _]. rewrite Hw in *. now rewrite writer_eqb_refl.
Qed.

Lemma writer_protocol_capture cur timestamp self :
writer_protocol cur (emitted (capture_image timestamp self)) = Some cur.
Proof.
rewrite capture_image_cases.
destruct (last_results self) as [[[f rh lh [pl|]]|]|]; cbv zeta;
  try destruct (last_frame self); reflexivity.
Qed.

Lemma writer_protocol_toggle timestamp self :
recording_consistent self = true ->
writer_protocol (video_writer self)
                (emitted (toggle_recording timestamp self)) =
Some (video_writer (final (toggle_recording timestamp self))).
Proof.
unfold recording_consistent. intros C. destruct (recording self) eqn:R.
- rewrite (toggle_recording_stop _ _ R). cbn [emitted final].
  destruct (video_writer self) as [w|] eqn:W; [|discriminate C].
  cbn. now rewrite writer_eqb_refl.
- rewrite (toggle_recording_start _ _ R). cbv zeta. cbn [emitted final].
  destruct (video_writer self) as [w|] eqn:W; [discriminate C|]. reflexivity.
Qed.

Lemma writer_protocol_cleanup self :
recording_consistent self = true ->
writer_protocol (video_writer self) (emitted (cleanup self)) = Some None.
Proof.
unfold recording_consistent. intros C. rewrite cleanup_steps. cbn [emitted].
destruct (video_writer self) as [w|], (recording self); try discriminate C.
- cbn. now rewrite writer_eqb_refl.
- reflexivity.
Qed.

(** The discipline along Tk's loop. *)
Lemma writer_protocol_tk_mainloop cs : forall pending self,
recording_consistent self = true ->
exists left_open,
  writer_protocol (video_writer self) (snd (tk_mainloop pending cs self)) =
    Some left_open /\
  (existsb closes cs = true -> left_open = None).
Proof.
induction cs as [|c rest IH]; intros pending self C.
- exists (video_writer self). split; [reflexivity|discriminate].
- assert (K := dispatch_keeps c self). destruct K as (_ & _ & K & _).
  specialize (K C).
  destruct c as [read|timestamp|timestamp|]; cbn [tk_mainloop dispatch] in *.
  + destruct pending; [|apply IH; exact C].
    destruct (IH (scheduled (emitted (update_frame read self))) _ K)
      as (st & Hst & Hclose).
    destruct (tk_mainloop _ rest (final (update_frame read self)))
      as [self' evs]. cbn [snd] in *.
    exists st. split; [|exact Hclose].
    rewrite writer_protocol_app,
      (writer_protocol_turn self _ (update_frame_alphabet read self)).
    destruct (update_frame_final read self) as (_ & _ & Hw & _).
    now rewrite <- Hw.
  + destruct (IH pending _ K) as (st & Hst & Hclose).
    destruct (tk_mainloop pending rest (final (capture_image timestamp self)))
      as [self' evs]. cbn [snd] in *.
    exists st. split; [|exact Hclose].
    rewrite writer_protocol_app, writer_protocol_capture.
    replace (video_writer self)
      with (video_writer (final (capture_image timestamp self))); [exact Hst|].
    rewrite capture_image_cases.
    destruct (last_results self) as [[[f rh lh [pl|]]|]|]; cbv zeta;
      try destruct (last_frame self); now destruct self.
  + destruct (IH pending _ K) as (st & Hst & Hclose).
    destruct (tk_mainloop pending rest (final (toggle_recording timestamp self)))
      as [self' evs]. cbn [snd] in *.
    exists st. split; [|exact Hclose].
    now rewrite writer_protocol_app, (writer_protocol_toggle _ _ C).
  + exists None. cbn [snd]. split; [|reflexivity].
    now apply writer_protocol_cleanup.
Qed.

(** X14: whatever happens in a session, the video writers are used in
    order: one is constructed only when none is open, frames are written
    only to the open one, and only the open one is released; when the
    window has been closed, none is left open. *)
Theorem session_writer_protocol h cap first cs :
exists left_open,
  writer_protocol None (main h cap first cs) = Some left_open /\
  (existsb closes cs = true -> left_open = None).
Proof.
unfold main. destruct (__init__ h cap) as [e|g] eqn:Hinit.
{ exists None. split; reflexivity. }
destruct (init_invariants _ _ _ Hinit) as [C _].
assert (N : video_writer g = None).
{ unfold recording_consistent in C. revert Hinit. unfold __init__, sum_bind.
  destruct (int_of_float (CAP_PROP_FRAME_WIDTH cap)); [discriminate|].
  destruct (int_of_float (CAP_PROP_FRAME_HEIGHT cap)); [discriminate|].
  destruct (int_of_float (CAP_PROP_FPS cap)); [discriminate|].
  now intros [= <-]. }
assert (T := writer_protocol_turn g _ (update_frame_alphabet first g)).
rewrite N in T.
destruct (update_frame_final first g) as (_ & Hr & Hw & _).
assert (C' : recording_consistent (final (update_frame first g)) = true).
{ unfold recording_consistent in *. now rewrite Hr, Hw. }
unfold run. step_method.
destruct (update_frame first g) as [[e|[]] self1 evs1] eqn:U;
  cbn [result final emitted app] in *.
- exists None. split; [|reflexivity].
  cbn [writer_protocol]. now rewrite writer_protocol_app, T.
- destruct (writer_protocol_tk_mainloop cs (scheduled (Log INFO
              "Starting landmark detection GUI. Close window to quit." :: evs1))
              self1 C') as (st & Hst & Hclose).
  destruct (tk_mainloop _ cs self1) as [self' evs]. cbn [snd result emitted] in *.
  exists st. split; [|exact Hclose].
  cbn [writer_protocol]. rewrite writer_protocol_app, T.
  now rewrite Hw, N in Hst.
Qed.

Lemma release_update_frame read self :
filter camera_release (emitted (update_frame read self)) = [].
Proof.
apply filter_all_false. intros ev H. apply update_frame_alphabet in H.
destruct ev; try reflexivity. destruct H.
Qed.

Lemma release_capture_image timestamp self :
filter camera_release (emitted (capture_image timestamp self)) = [].
Proof.
apply filter_all_false. intros ev H. apply capture_image_event in H.
destruct ev; try reflexivity. destruct H.
Qed.

Lemma release_toggle_recording timestamp self :
filter camera_release (emitted (toggle_recording timestamp self)) = [].
Proof.
apply filter_all_false. intros ev H. apply toggle_recording_event in H.
destruct ev; try reflexivity. destruct H.
Qed.

Lemma release_cleanup self :
filter camera_release (emitted (cleanup self)) = [CapRelease].
Proof.
rewrite cleanup_steps. cbn [emitted].
destruct (video_writer self); [destruct (recording self)|]; reflexivity.
Qed.

Lemma release_tk_mainloop cs : forall pending self,
filter camera_release (snd (tk_mainloop pending cs self)) =
if existsb closes cs then [CapRelease] else [].
Proof.
induction cs as [|c rest IH]; intros pending self; [reflexivity|].
destruct c as [read|timestamp|timestamp|]; cbn [tk_mainloop dispatch existsb closes orb].
- destruct pending; [|apply IH].
  specialize (IH (scheduled (emitted (update_frame read self)))
                 (final (update_frame read self))).
  destruct (tk_mainloop _ rest (final (update_frame read self))) as [s' evs].
  cbn [snd] in *. now rewrite filter_app, release_update_frame.
- specialize (IH pending (final (capture_image timestamp self))).
  destruct (tk_mainloop _ rest (final (capture_image timestamp self)))
    as [s' evs].
  cbn [snd] in *. now rewrite filter_app, release_capture_image.
- specialize (IH pending (final (toggle_recording timestamp self))).
  destruct (tk_mainloop _ rest (final (toggle_recording timestamp self)))
    as [s' evs].
  cbn [snd] in *. now rewrite filter_app, release_toggle_recording.
- cbn [snd]. apply release_cleanup.
Qed.

(** X15: the program releases the camera once, when the window is closed,
    and at no other time: not when [__init__] raises, not when the first
    turn of [update_frame] raises and ends [run], and not in a session that
    is not closed. *)
Theorem camera_released_when_closed h cap first cs :
filter camera_release (main h cap first cs) =
match __init__ h cap with
| inl _ => []
| inr g =>
    match result (update_frame first g) with
    | inl _ => []
    | inr _ => if existsb closes cs then [CapRelease] else []
    end
end.
Proof.
unfold main. destruct (__init__ h cap) as [e|g]; [reflexivity|].
unfold run. step_method.
assert (R := release_update_frame first g).
destruct (update_frame first g) as [[e|[]] self1 evs1];
  cbn [result final emitted app] in *.
- cbn [filter camera_release]. now rewrite filter_app, R.
- assert (T := release_tk_mainloop cs
                 (scheduled (Log INFO
                    "Starting landmark detection GUI. Close window to quit."
                    :: evs1)) self1).
  destruct (tk_mainloop _ cs self1) as [self' evs].
  cbn [snd result emitted filter camera_release] in *.
  now rewrite filter_app, R.
Qed.

Lemma loop_capture_image timestamp self :
filter loop_event (emitted (capture_image timestamp self)) = [].
Proof.
apply filter_all_false. intros ev H. apply capture_image_event in H.
destruct ev; try reflexivity; destruct H.
Qed.

Lemma loop_toggle_recording timestamp self :
filter loop_event (emitted (toggle_recording timestamp self)) = [].
Proof.
apply filter_all_false. intros ev H. apply toggle_recording_event in H.
destruct ev; try reflexivity; destruct H.
Qed.

Lemma loop_cleanup self :
filter loop_event (emitted (cleanup self)) = [].
Proof.
apply filter_all_false. intros ev H. apply cleanup_event in H.
destruct ev; try reflexivity; destruct H.
Qed.

(** With no turn pending, nothing in the session reads the camera, writes
    to the recording or shows an action. *)
Lemma tk_mainloop_stalled cs : forall self,
filter loop_event (snd (tk_mainloop false cs self)) = [].
Proof.
induction cs as [|c rest IH]; intros self; [reflexivity|].
destruct c as [read|timestamp|timestamp|]; cbn [tk_mainloop dispatch].
- apply IH.
- specialize (IH (final (capture_image timestamp self))).
  destruct (tk_mainloop _ rest (final (capture_image timestamp self)))
    as [s' evs].
  cbn [snd] in *. now rewrite filter_app, loop_capture_image.
- specialize (IH (final (toggle_recording timestamp self))).
  destruct (tk_mainloop _ rest (final (toggle_recording timestamp self)))
    as [s' evs].
  cbn [snd] in *. now rewrite filter_app, loop_toggle_recording.
- cbn [snd]. apply loop_cleanup.
Qed.

(** X16: once a turn of [update_frame] raises in Tk's loop, the loop never
    runs again: for the rest of the session no frame is read, none is
    written to the recording and no action is shown, whatever the timer, the
    camera and the user do. *)
Theorem loop_dies_on_exception read self e cs :
result (update_frame read self) = inl e ->
exists rest,
  snd (tk_mainloop true (Tick read :: cs) self) =
    (emitted (update_frame read self) ++ rest)%list /\
  filter loop_event rest = [].
Proof.
intros Hraise. cbn [tk_mainloop].
assert (S : scheduled (emitted (update_frame read self)) = false).
{ rewrite scheduled_update_frame, Hraise. apply andb_false_r. }
rewrite S.
assert (T := tk_mainloop_stalled cs (final (update_frame read self))).
destruct (tk_mainloop false cs (final (update_frame read self))) as [s' evs].
cbn [snd] in *. now exists evs.
Qed.

End MoreAppFacts.


(** * Instances of the further properties *)

Lemma detect_action_nan_not_raised_witness :
outcome (detect_action mp_pose (Some Studio.lost)) = inr "Standing".
Proof.
refine (proj2 (proj2 (detect_action_nan_not_raised mp_pose Studio.lost
          (mkLandmarkList (repeat (mkLandmark 0.5 nan 0 0) 33))
          (mkLandmark 0.5 nan 0 0) (mkLandmark 0.5 nan 0 0)
          (mkLandmark 0.5 nan 0 0) (mkLandmark 0.5 nan 0 0)
          _ _ _ _ _)) _ _); reflexivity.
Defined.

Lemma update_frame_aborts_midway_witness :
exists processed results,
  result (process_frame (L := Studio.no_display) [9; 7; 2]%nat Studio.filming) =
    inr (processed, results) /\
  written (emitted (update_frame (L := Studio.no_display)
                                 (Some [9; 7; 2]%nat) Studio.filming)) =
    [(Sample.clip, processed)] /\
  scheduled (emitted (update_frame (L := Studio.no_display)
                                   (Some [9; 7; 2]%nat) Studio.filming)) =
    false.
Proof.
destruct (update_frame_aborts_midway (L := Studio.no_display)
            [9; 7; 2]%nat Studio.filming (LibraryError "no display")
            eq_refl eq_refl eq_refl)
  as (processed & results & H1 & _ & H3 & _ & _ & _ & H7).
exists processed, results. auto.
Defined.

Lemma capture_after_failed_processing_witness :
result (capture_image (L := Sample.world) "20250316_120000"
          (final (update_frame (L := Sample.world) (Some [9; 7; 5]%nat)
                               Sample.fresh))) =
inl (AttributeError "'NoneType' object has no attribute 'pose_landmarks'").
Proof.
exact (f_equal result
         (capture_after_failed_processing (L := Sample.world)
            "20250316_120000" [9; 7; 5]%nat Sample.fresh
            (LibraryError "detector failed") eq_refl eq_refl eq_refl)).
Defined.

Lemma snapshot_is_latest_processed_frame_witness :
saved (emitted (capture_image (L := Sample.world) "20250316_120000"
                  (final (update_frame (L := Sample.world)
                                       (Some [9; 7; 2]%nat) Sample.fresh)))) =
[("capture_20250316_120000.jpg", [9; 7; 2; 33]%nat)].
Proof.
refine (proj2 (snapshot_is_latest_processed_frame (L := Sample.world)
                 "20250316_120000" [9; 7; 2]%nat Sample.fresh
                 [9; 7; 2; 33]%nat Sample.right_up eq_refl eq_refl eq_refl _)).
discriminate.
Defined.

Lemma closed_camera_blank_witness :
filter feed_event (snd (mainloop Studio.afternoon Studio.dark)) = [].
Proof.
exact (closed_camera_blank (L := Sample.world) 0%nat Studio.unplugged
         Studio.dark Studio.afternoon eq_refl eq_refl).
Defined.

Lemma writers_use_camera_geometry_witness :
fourcc Sample.clip = "mp4v" /\
int_of_float (CAP_PROP_FRAME_WIDTH Sample.webcam) =
  inr (fst (frame_size Sample.clip)) /\
int_of_float (CAP_PROP_FRAME_HEIGHT Sample.webcam) =
  inr (snd (frame_size Sample.clip)) /\
exists timestamp,
  In (PressRecord (L := Sample.world) timestamp)
     [PressRecord (L := Sample.world) "20250316_120000"] /\
  filename Sample.clip = "recording_" ++ timestamp ++ ".mp4".
Proof.
apply (writers_use_camera_geometry (L := Sample.world) 0%nat Sample.webcam
         Sample.fresh [PressRecord (L := Sample.world) "20250316_120000"]
         Sample.clip eq_refl).
left. reflexivity.
Defined.

Lemma recording_consistent_in_every_run_witness :
recording (fst (mainloop Studio.afternoon Sample.fresh)) = true <->
video_writer (fst (mainloop Studio.afternoon Sample.fresh)) <> None.
Proof.
exact (recording_consistent_in_every_run (L := Sample.world) 0%nat
         Sample.webcam Sample.fresh Studio.afternoon eq_refl).
Defined.

Lemma snapshots_show_a_pose_witness :
exists frame before results,
  result (process_frame (L := Sample.world) frame before) =
    inr ([9; 7; 2; 33]%nat, Some results) /\
  pose_landmarks results <> None.
Proof.
apply (snapshots_show_a_pose (L := Sample.world) 0%nat Sample.webcam
         Sample.fresh Studio.afternoon "capture_20250316_120000.jpg"
         [9; 7; 2; 33]%nat eq_refl).
left. reflexivity.
Defined.

Lemma loop_dies_on_exception_witness :
exists rest,
  snd (tk_mainloop (L := Studio.no_display) true
         [Tick (L := Studio.no_display) (Some [9; 7; 2]%nat);
          Tick (L := Studio.no_display) (Some [9; 7; 4]%nat);
          CloseWindow] Studio.filming) =
    (emitted (update_frame (L := Studio.no_display) (Some [9; 7; 2]%nat)
                           Studio.filming) ++ rest)%list /\
  filter loop_event rest = [].
Proof.
exact (loop_dies_on_exception (L := Studio.no_display) (Some [9; 7; 2]%nat)
         Studio.filming (LibraryError "no display")
         [Tick (L := Studio.no_display) (Some [9; 7; 4]%nat); CloseWindow]
         eq_refl).
Defined.

(** The program on the sample afternoon, start to end. *)
Example main_afternoon :
filter (fun ev => writer_event ev || camera_release ev)
       (main (L := Sample.world) 0%nat Sample.webcam (Some [9; 7; 1]%nat)
             Studio.afternoon) =
[WriterOpen (L := Sample.world)
   (mkWriter "recording_20250316_120001.mp4" "mp4v" 30 (640, 480)%Z);
 WriterWrite (L := Sample.world)
   (mkWriter "recording_20250316_120001.mp4" "mp4v" 30 (640, 480)%Z)
   [9; 7; 4; 33]%nat;
 WriterRelease (mkWriter "recording_20250316_120001.mp4" "mp4v" 30 (640, 480)%Z);
 CapRelease].
Proof. reflexivity. Qed.

Example main_on_confused_camera :
main (L := Sample.world) 0%nat Studio.confused (Some [9; 7; 1]%nat)
     Studio.afternoon =
[Log ERROR "Application failed to start: cannot convert float NaN to integer"].
Proof. reflexivity. Qed.
